(** * Mood Journal: a shallow embedding of [app.py]

    The Flask application has two request handlers, [add_entry] and
    [get_moods], one helper that talks to the remote emotion classifier,
    [analyze_emotion], and one that opens a MySQL connection,
    [get_db_connection].  The handlers are embedded as functions from a
    request, the state of the [journal_entries] table and the behaviour of
    the outside world (classifier, database engine, clock) to a response,
    the next state of the table and the trace of external calls made.

    Python values are embedded dynamically typed, as the handlers receive
    and produce JSON: the failures the interpreter would raise are kept as
    values of [pyexn]. *)

From Stdlib Require Import ZArith List String Ascii Bool Lia Floats.
From Stdlib Require Import DecimalString.
From Stdlib Require Import Permutation Sorted.
Import ListNotations.

#[local] Set Warnings "-register-all,-inexact-float".
Local Open Scope string_scope.
Local Open Scope list_scope.
Local Open Scope Z_scope.

(** ** Python values *)

Module Py.

(** The values [json] decoding produces, which are also the values the
    handlers compute with.  [PStr] holds the UTF-8 bytes of a [str]; a
    [dict] is an association list in insertion order, with keys that are
    pairwise different for [same]. *)
Inductive pyval : Type :=
| PNone
| PBool (b : bool)
| PInt (n : Z)
| PFloat (f : float)
| PStr (s : string)
| PList (xs : list pyval)
| PDict (kvs : list (pyval * pyval)).

(** The exceptions of the interpreter that the handlers can meet. *)
Inductive pyexn : Type :=
| KeyError
| TypeError
| AttributeError
| ValueError
| RecursionError.

(** A computation that returns a value or raises. *)
Definition raises (A : Type) : Type := (pyexn + A)%type.

Definition ret {A : Type} (a : A) : raises A := inr a.
Definition raise {A : Type} (e : pyexn) : raises A := inl e.
Definition bind {A B : Type} (m : raises A) (k : A -> raises B) : raises B :=
  match m with
  | inl e => inl e
  | inr a => k a
  end.

Notation "x <- m ;; k" := (bind m (fun x => k))
  (at level 100, m at next level, right associativity).

(** *** Numbers

    [bool], [int] and [float] compare with each other by value.  An [int]
    against a [float] is compared exactly, through the sign, mantissa and
    exponent of the float. *)

Definition is_nan (f : float) : bool := negb (PrimFloat.eqb f f).

Definition Z_float_compare (n : Z) (f : float) : option comparison :=
  match Prim2SF f with
  | S754_nan => None
  | S754_infinity s => Some (if s then Gt else Lt)
  | S754_zero _ => Some (n ?= 0)
  | S754_finite s m e =>
      let v := if s then Z.neg m else Z.pos m in
      Some (if 0 <=? e then n ?= v * 2 ^ e else n * 2 ^ (- e) ?= v)
  end.

Inductive number : Type :=
| NInt (n : Z)
| NFloat (f : float).

Definition as_number (v : pyval) : option number :=
  match v with
  | PBool b => Some (NInt (if b then 1 else 0))
  | PInt n => Some (NInt n)
  | PFloat f => Some (NFloat f)
  | _ => None
  end.

(** [a > b] on numbers. *)
Definition num_gt (a b : number) : bool :=
  match a, b with
  | NInt x, NInt y => y <? x
  | NFloat x, NFloat y => PrimFloat.ltb y x
  | NInt x, NFloat y =>
      match Z_float_compare x y with Some Gt => true | _ => false end
  | NFloat x, NInt y =>
      match Z_float_compare y x with Some Lt => true | _ => false end
  end.

(** [a is b or a == b] on numbers: the decoder hands out one object for
    every [NaN], so a NaN is the same as a NaN. *)
Definition num_same (a b : number) : bool :=
  match a, b with
  | NInt x, NInt y => x =? y
  | NFloat x, NFloat y => PrimFloat.eqb x y || (is_nan x && is_nan y)
  | NInt x, NFloat y | NFloat y, NInt x =>
      match Z_float_compare x y with Some Eq => true | _ => false end
  end.

(** *** Truth value, [bool(v)] *)
Definition truthy (v : pyval) : bool :=
  match v with
  | PNone => false
  | PBool b => b
  | PInt n => negb (n =? 0)
  | PFloat f => negb (PrimFloat.eqb f 0)
  | PStr s => negb (String.eqb s "")
  | PList xs => match xs with [] => false | _ :: _ => true end
  | PDict kvs => match kvs with [] => false | _ :: _ => true end
  end.

(** *** Identity or equality, as [dict] lookup and sequence comparison
    use it *)
Fixpoint same (a b : pyval) {struct a} : bool :=
  match a, b with
  | PNone, PNone => true
  | PStr s, PStr t => String.eqb s t
  | PList xs, PList ys =>
      (fix all2 (xs ys : list pyval) {struct xs} : bool :=
         match xs, ys with
         | [], [] => true
         | x :: xs', y :: ys' => same x y && all2 xs' ys'
         | _, _ => false
         end) xs ys
  | PDict kvs, PDict kvs' =>
      (List.length kvs =? List.length kvs')%nat &&
      (fix sub (kvs : list (pyval * pyval)) {struct kvs} : bool :=
         match kvs with
         | [] => true
         | (k, v) :: rest =>
             (fix find (cands : list (pyval * pyval)) : bool :=
                match cands with
                | [] => false
                | (k', v') :: cands' =>
                    if same k k' then same v v' else find cands'
                end) kvs' && sub rest
         end) kvs
  | _, _ =>
      match as_number a, as_number b with
      | Some x, Some y => num_same x y
      | _, _ => false
      end
  end.

(** [a > b].  Numbers compare by value, strings and lists
    lexicographically; any other pair is not ordered. *)
Fixpoint gt (a b : pyval) {struct a} : raises bool :=
  match a, b with
  | PStr s, PStr t => ret (String.ltb t s)
  | PList xs, PList ys =>
      (fix lex (xs ys : list pyval) {struct xs} : raises bool :=
         match xs, ys with
         | [], _ => ret false
         | _ :: _, [] => ret true
         | x :: xs', y :: ys' => if same x y then lex xs' ys' else gt x y
         end) xs ys
  | _, _ =>
      match as_number a, as_number b with
      | Some x, Some y => ret (num_gt x y)
      | _, _ => raise TypeError
      end
  end.

(** [hash(v)] succeeds: lists and dicts are not hashable. *)
Definition hashable (v : pyval) : bool :=
  match v with
  | PList _ | PDict _ => false
  | _ => true
  end.

(** *** Dictionaries *)

Definition dict : Type := list (pyval * pyval).

Fixpoint lookup (d : dict) (k : pyval) : option pyval :=
  match d with
  | [] => None
  | (k', v) :: d' => if same k' k then Some v else lookup d' k
  end.

(** [d[k] = v]: an existing key keeps its place. *)
Fixpoint store (d : dict) (k v : pyval) : dict :=
  match d with
  | [] => [(k, v)]
  | (k', v') :: d' => if same k' k then (k', v) :: d' else (k', v') :: store d' k v
  end.

Definition keys (d : dict) : list pyval := map fst d.

(** [d.get(k)] *)
Definition dict_get (d : dict) (k : pyval) : pyval :=
  match lookup d k with
  | Some v => v
  | None => PNone
  end.

(** [o.get(k)] on any value: only a dict has the method. *)
Definition get (o : pyval) (k : pyval) : raises pyval :=
  match o with
  | PDict d => ret (dict_get d k)
  | _ => raise AttributeError
  end.

(** [o[k]] for a string [k]: a dict without the key raises [KeyError];
    lists and strings take integer indices only, the other values are not
    subscriptable. *)
Definition getitem (o : pyval) (k : string) : raises pyval :=
  match o with
  | PDict d =>
      match lookup d (PStr k) with
      | Some v => ret v
      | None => raise KeyError
      end
  | _ => raise TypeError
  end.

(** [{key(item): value(item) for item in items}] *)
Fixpoint dict_comp (key value : pyval -> raises pyval) (items : list pyval)
    (acc : dict) : raises dict :=
  match items with
  | [] => ret acc
  | item :: items' =>
      k <- key item ;;
      v <- value item ;;
      if hashable k then dict_comp key value items' (store acc k v)
      else raise TypeError
  end.

(** *** [max(iterable, key=f)]: the first element is kept until a later
    one is greater for [>], so the first of several greatest wins. *)
Fixpoint max_loop (f : pyval -> pyval) (best best_key : pyval)
    (rest : list pyval) : raises pyval :=
  match rest with
  | [] => ret best
  | x :: rest' =>
      let kx := f x in
      b <- gt kx best_key ;;
      if b then max_loop f x kx rest' else max_loop f best best_key rest'
  end.

Definition max_by (f : pyval -> pyval) (xs : list pyval) : raises pyval :=
  match xs with
  | [] => raise ValueError
  | x :: rest => max_loop f x (f x) rest
  end.

(** *** [v * 100] *)
Fixpoint repeat_string (n : nat) (s : string) : string :=
  match n with
  | O => ""
  | S n' => (s ++ repeat_string n' s)%string
  end.

Definition times_100 (v : pyval) : raises pyval :=
  match v with
  | PBool b => ret (PInt (if b then 100 else 0))
  | PInt n => ret (PInt (n * 100))
  | PFloat f => ret (PFloat (f * 100)%float)
  | PStr s => ret (PStr (repeat_string 100 s))
  | PList xs => ret (PList (List.concat (repeat xs 100)))
  | PNone | PDict _ => raise TypeError
  end.

End Py.

Import Py.

(** ** The [journal_entries] table *)

(** A [DATETIME] value, as [datetime.datetime] holds it. *)
Record datetime : Type := {
  year : Z;
  month : Z;
  day : Z;
  hour : Z;
  minute : Z;
  second : Z
}.

(** The number [YYYYMMDDhhmmss]: on the values a datetime can hold its
    order is the order of time. *)
Definition datetime_key (d : datetime) : Z :=
  ((((year d * 100 + month d) * 100 + day d) * 100 + hour d) * 100
   + minute d) * 100 + second d.

(** One row of the table created by [setup_database]:
    [id INT AUTO_INCREMENT PRIMARY KEY], [entry_text TEXT NOT NULL],
    [primary_emotion VARCHAR(50) NOT NULL],
    [primary_score DECIMAL(5, 2) NOT NULL], held in hundredths, and
    [timestamp DATETIME DEFAULT CURRENT_TIMESTAMP]. *)
Record row : Type := {
  id : Z;
  entry_text : string;
  primary_emotion : string;
  primary_score : Z;
  timestamp : datetime
}.

(** The committed rows, oldest insertion first, and the next value of the
    auto-increment counter. *)
Record table : Type := {
  rows : list row;
  auto_increment : Z
}.

(** A connection with the row its open transaction has written, if any. *)
Record connection : Type := {
  pending : option row
}.

(** ** The outside world *)

(** What [requests.post(...)], [raise_for_status()] and [response.json()]
    come to for one payload: one of the two exceptions that
    [analyze_emotion] catches, any other exception, such as the
    [ValueError] of an integer with too many digits or the
    [RecursionError] of a deeply nested body, or the decoded body. *)
Inductive http_result : Type :=
| RequestException
| JSONDecodeError
| OtherException (e : pyexn)
| Decoded (result : pyval).

(** The behaviour of the remote classifier and of the MySQL server during
    one request.  [statement_ok] is whether the server takes the [INSERT]
    with these parameters, which it does not when a value does not fit
    its column; [number_text] is the text it stores for a number sent
    for a text column, [text_decimal] the decimal it reads in a string
    sent for the score, if any, and [rounds_up] the hundredth it stores
    for a float that lies between two; [tie_before] is the order in which
    it happens to return two rows the [ORDER BY] does not tell apart. *)
Record world : Type := {
  requests_post : pyval -> http_result;
  connect_ok : bool;
  statement_ok : pyval -> pyval -> pyval -> bool;
  number_text : pyval -> string;
  text_decimal : string -> option Z;
  rounds_up : float -> bool;
  commit_ok : bool;
  current_timestamp : datetime;
  select_ok : bool;
  tie_before : row -> row -> bool
}.

(** The calls a handler makes to the outside. *)
Inductive event : Type :=
| Post (payload : pyval)
| Connect
| Insert (text emotion score : pyval)
| Commit
| Select
| Close.

(** *** The values of the columns

    The server is in strict SQL mode: it stores what it is sent or
    refuses the statement with a [mysql.connector.Error]. *)

(** [DECIMAL(5, 2)] of a float, in hundredths.  A float that is not a
    whole number of hundredths lies between two of them, and the server
    stores one of the two, the upper one for [up]; a NaN, an infinity and
    a value outside the range of the column are refused. *)
Definition decimal_5_2 (up : bool) (f : float) : option Z :=
  match Prim2SF f with
  | S754_zero _ => Some 0
  | S754_finite sign m e =>
      let n := (if sign then Z.neg m else Z.pos m) * 100 in
      let below := if 0 <=? e then n * 2 ^ e else n / 2 ^ (- e) in
      let whole := if 0 <=? e then true else n mod 2 ^ (- e) =? 0 in
      let s := if whole || negb up then below else below + 1 in
      if (-99999 <=? s) && (s <=? 99999) then Some s else None
  | _ => None
  end.

(** A parameter for a [TEXT] or [VARCHAR] column that is [NOT NULL]: a
    string is stored as it is, a number as the text the server makes of
    it; [None] is refused by the column, a list or a dict by the
    connector. *)
Definition text_column (w : world) (v : pyval) : option string :=
  match v with
  | PStr s => Some s
  | PBool _ | PInt _ | PFloat _ => Some (number_text w v)
  | PNone | PList _ | PDict _ => None
  end.

(** A parameter for the [DECIMAL(5, 2)] column. *)
Definition score_column (w : world) (v : pyval) : option Z :=
  match v with
  | PFloat f => decimal_5_2 (rounds_up w f) f
  | PInt n =>
      if (-99999 <=? n * 100) && (n * 100 <=? 99999) then Some (n * 100)
      else None
  | PBool b => Some (if b then 100 else 0)
  | PStr s => text_decimal w s
  | PNone | PList _ | PDict _ => None
  end.

(** What the columns [entry_text], [primary_emotion] and [primary_score]
    get from the three parameters of the [INSERT], [None] when the
    statement is refused. *)
Definition column_values (w : world) (text emotion score : pyval)
    : option (string * string * Z) :=
  if statement_ok w text emotion score then
    match text_column w text, text_column w emotion, score_column w score with
    | Some t, Some e, Some s => Some (t, e, s)
    | _, _, _ => None
    end
  else None.

(** *** The database operations the handlers use *)

(** [get_db_connection(database=DB_NAME)]: a connection, or [None] when
    [mysql.connector.connect] raises. *)
Definition get_db_connection (w : world) : option connection :=
  if connect_ok w then Some {| pending := None |} else None.

(** [cursor.execute(INSERT ..., params)]: the row is written inside the
    transaction of the connection, with the next id and the server's
    time; [None] when the statement raises. *)
Definition execute_insert (w : world) (tbl : table) (text emotion score : pyval)
    : option (table * connection) :=
  match column_values w text emotion score with
  | None => None
  | Some (t, e, s) =>
      Some ({| rows := rows tbl; auto_increment := auto_increment tbl + 1 |},
            {| pending :=
                 Some {| id := auto_increment tbl;
                         entry_text := t;
                         primary_emotion := e;
                         primary_score := s;
                         timestamp := current_timestamp w |} |})
  end.

(** [conn.commit()]: the written row becomes visible; [None] when the
    commit raises, and then nothing was added. *)
Definition commit (w : world) (tbl : table) (conn : connection) : option table :=
  if commit_ok w then
    Some {| rows := rows tbl ++ match pending conn with
                               | Some r => [r]
                               | None => []
                               end;
            auto_increment := auto_increment tbl |}
  else None.

(** [ORDER BY timestamp DESC]: [a] is returned before [b] when it is
    newer, and for equal timestamps when the server says so. *)
Definition precedes (tie : row -> row -> bool) (a b : row) : bool :=
  (datetime_key (timestamp b) <? datetime_key (timestamp a))
  || ((datetime_key (timestamp b) =? datetime_key (timestamp a)) && tie a b).

Fixpoint place (before : row -> row -> bool) (r : row) (sorted : list row)
    : list row :=
  match sorted with
  | [] => [r]
  | x :: rest => if before r x then r :: x :: rest else x :: place before r rest
  end.

Definition order_by_timestamp_desc (tie : row -> row -> bool) (rs : list row)
    : list row :=
  fold_right (place (precedes tie)) [] rs.

(** [SELECT ... FROM journal_entries ORDER BY timestamp DESC LIMIT n] *)
Definition select_recent (w : world) (n : nat) (tbl : table) : list row :=
  firstn n (order_by_timestamp_desc (tie_before w) (rows tbl)).

(** ** Responses *)

(** One element of the list [get_moods] hands to [jsonify]: the fetched
    row with its timestamp replaced by a string. *)
Record entry : Type := {
  json_id : Z;
  json_entry_text : string;
  json_primary_emotion : string;
  json_primary_score : Z;
  json_timestamp : string
}.

Inductive body : Type :=
| Json (v : pyval)
| Entries (es : list entry).

(** What the client gets: a JSON response with its status, or Flask's own
    answer to an exception that left the handler. *)
Inductive reply : Type :=
| Response (status : Z) (b : body)
| Unhandled (e : pyexn).

Record outcome : Type := {
  answer : reply;
  after : table;
  trace : list event
}.

Definition respond (status : Z) (b : body) (tbl : table) (tr : list event)
    : outcome :=
  {| answer := Response status b; after := tbl; trace := tr |}.

Definition unhandled (e : pyexn) (tbl : table) (tr : list event) : outcome :=
  {| answer := Unhandled e; after := tbl; trace := tr |}.

Definition error (msg : string) : body :=
  Json (PDict [(PStr "error", PStr msg)]).

(** ** [analyze_emotion] *)

Definition isinstance_list (v : pyval) : bool :=
  match v with
  | PList _ => true
  | _ => false
  end.

(** The elements of a list, for [result[0]] and [for item in ...]. *)
Definition elements (v : pyval) : list pyval :=
  match v with
  | PList xs => xs
  | _ => []
  end.

Definition item0 (v : pyval) : pyval := hd PNone (elements v).

Definition payload (text : pyval) : pyval := PDict [(PStr "inputs", text)].

(** The mapping of labels to scores, [None] for a failed request, a body
    that is not JSON or a result that is not a list starting with a list.
    Any other exception of the request and the comprehension's
    [KeyError] and [TypeError] are not caught. *)
Definition analyze_emotion (w : world) (text : pyval) : raises pyval * list event :=
  (match requests_post w (payload text) with
   | RequestException => ret PNone
   | JSONDecodeError => ret PNone
   | OtherException e => raise e
   | Decoded result =>
       if truthy result && isinstance_list result
          && isinstance_list (item0 result)
       then
         emotion_scores <-
           dict_comp (fun item => getitem item "label")
                     (fun item => getitem item "score")
                     (elements (item0 result)) [] ;;
         ret (PDict emotion_scores)
       else ret PNone
   end,
   [Post (payload text)]).

(** ** [add_entry] *)

(** [d[k]] on a dict. *)
Definition subscript (d : dict) (k : pyval) : raises pyval :=
  match lookup d k with
  | Some v => ret v
  | None => raise KeyError
  end.

(** The two lines that find the primary emotion and its score:
    [max(emotion_data, key=emotion_data.get)] and
    [emotion_data[primary_emotion] * 100]. *)
Definition primary (emotion_data : pyval) : raises (pyval * pyval) :=
  match emotion_data with
  | PDict d =>
      primary_emotion <- max_by (dict_get d) (keys d) ;;
      score <- subscript d primary_emotion ;;
      primary_score <- times_100 score ;;
      ret (primary_emotion, primary_score)
  | _ => raise AttributeError
  end.

Definition saved (primary_emotion primary_score : pyval) : body :=
  Json (PDict [(PStr "message", PStr "Entry saved successfully");
               (PStr "emotion", primary_emotion);
               (PStr "score", primary_score)]).

(** The second half of the handler: connect, insert, commit, and close
    in the [finally] clause, which drops a transaction not committed. *)
Definition save_entry (w : world) (tbl : table)
    (text emotion score : pyval) : outcome :=
  match get_db_connection w with
  | None => respond 500 (error "Database connection failed") tbl [Connect]
  | Some _ =>
      match execute_insert w tbl text emotion score with
      | None =>
          respond 500 (error "Failed to save entry to database") tbl
                  [Connect; Insert text emotion score; Close]
      | Some (tbl', conn) =>
          match commit w tbl' conn with
          | None =>
              respond 500 (error "Failed to save entry to database") tbl'
                      [Connect; Insert text emotion score; Commit; Close]
          | Some tbl'' =>
              respond 200 (saved emotion score) tbl''
                      [Connect; Insert text emotion score; Commit; Close]
          end
      end
  end.

Definition add_entry (w : world) (data : pyval) (tbl : table) : outcome :=
  match get data (PStr "text") with
  | inl e => unhandled e tbl []
  | inr text =>
      if negb (truthy text) then
        respond 400 (error "No text provided") tbl []
      else
        let (emotion_data, posted) := analyze_emotion w text in
        match emotion_data with
        | inl e => unhandled e tbl posted
        | inr emotion_data =>
            if negb (truthy emotion_data) then
              respond 500 (error "Failed to analyze emotion") tbl posted
            else
              match primary emotion_data with
              | inl e => unhandled e tbl posted
              | inr (emotion, score) =>
                  let o := save_entry w tbl text emotion score in
                  {| answer := answer o;
                     after := after o;
                     trace := posted ++ trace o |}
              end
        end
  end.

(** ** [get_moods] *)

Definition digit (n : Z) : ascii := ascii_of_nat (48 + Z.to_nat (n mod 10)).

Definition pad2 (n : Z) : string :=
  String (digit (n / 10)) (String (digit n) "").

Definition pad4 (n : Z) : string :=
  String (digit (n / 1000)) (String (digit (n / 100)) (pad2 n)).

(** [datetime.isoformat()] of a value without microseconds:
    [YYYY-MM-DDTHH:MM:SS]. *)
Definition isoformat (d : datetime) : string :=
  (pad4 (year d) ++ "-" ++ pad2 (month d) ++ "-" ++ pad2 (day d) ++ "T"
   ++ pad2 (hour d) ++ ":" ++ pad2 (minute d) ++ ":" ++ pad2 (second d))%string.

(** [entry['timestamp'] = entry['timestamp'].isoformat()] *)
Definition format_entry (r : row) : entry :=
  {| json_id := id r;
     json_entry_text := entry_text r;
     json_primary_emotion := primary_emotion r;
     json_primary_score := primary_score r;
     json_timestamp := isoformat (timestamp r) |}.

Definition get_moods (w : world) (tbl : table) : outcome :=
  match get_db_connection w with
  | None => respond 500 (error "Database connection failed") tbl [Connect]
  | Some _ =>
      if select_ok w then
        let entries := select_recent w 30 tbl in
        respond 200 (Entries (map format_entry entries)) tbl
                [Connect; Select; Close]
      else
        respond 500 (error "Failed to retrieve moods") tbl
                [Connect; Select; Close]
  end.

(** ** Notions the properties are stated with *)

(** An emotion-score mapping as the classifier is meant to return it:
    labels with a floating-point confidence each, in iteration order. *)
Definition of_scores (scores : list (string * float)) : dict :=
  map (fun ls => (PStr (fst ls), PFloat (snd ls))) scores.



(** The float [f] and the decimal of [s] hundredths differ by 0.01 at
    most: with the value of [f] written [v * 2 ^ e], the two numbers
    [100 * v * 2 ^ e] and [s] differ by 1 at most. *)
Definition within_a_hundredth (f : float) (s : Z) : Prop :=
  match Prim2SF f with
  | S754_zero _ => Z.abs s <= 1
  | S754_finite sign m e =>
      let v := if sign then Z.neg m else Z.pos m in
      if 0 <=? e then Z.abs (100 * v * 2 ^ e - s) <= 1
      else Z.abs (100 * v - s * 2 ^ (- e)) <= 2 ^ (- e)
  | _ => False
  end.

(** The request body [{"text": text}]. *)
Definition request (text : pyval) : pyval := PDict [(PStr "text", text)].

(** [a] may be listed before [b] by [ORDER BY timestamp DESC]. *)
Definition newer_or_same (a b : row) : Prop :=
  datetime_key (timestamp b) <= datetime_key (timestamp a).

(** [a] is newer than [b], or as old and inserted after it. *)
Definition newest_inserted_first (a b : row) : Prop :=
  datetime_key (timestamp b) < datetime_key (timestamp a)
  \/ (datetime_key (timestamp b) = datetime_key (timestamp a) /\ id b < id a).

(** The rows of the table that are at least as new as [d]. *)
Definition not_older (d : datetime) (rs : list row) : list row :=
  filter (fun r => datetime_key d <=? datetime_key (timestamp r)) rs.

(** *** Reading an ISO 8601 date and time back *)

Definition digit_value (c : ascii) : option Z :=
  let n := Z.of_nat (nat_of_ascii c) in
  if (48 <=? n) && (n <=? 57) then Some (n - 48) else None.

Definition number2 (a b : ascii) : option Z :=
  match digit_value a, digit_value b with
  | Some x, Some y => Some (x * 10 + y)
  | _, _ => None
  end.

Definition number4 (a b c d : ascii) : option Z :=
  match number2 a b, number2 c d with
  | Some x, Some y => Some (x * 100 + y)
  | _, _ => None
  end.

Definition leap_year (y : Z) : bool :=
  ((y mod 4 =? 0) && negb (y mod 100 =? 0)) || (y mod 400 =? 0).

Definition days_in_month (y m : Z) : Z :=
  if m =? 2 then (if leap_year y then 29 else 28)
  else if (m =? 4) || (m =? 6) || (m =? 9) || (m =? 11) then 30
  else 31.

(** The values a [datetime.datetime] can hold. *)
Definition valid_datetime (d : datetime) : bool :=
  (1 <=? year d) && (year d <=? 9999)
  && (1 <=? month d) && (month d <=? 12)
  && (1 <=? day d) && (day d <=? days_in_month (year d) (month d))
  && (0 <=? hour d) && (hour d <=? 23)
  && (0 <=? minute d) && (minute d <=? 59)
  && (0 <=? second d) && (second d <=? 59).

Definition characters (s : string) : list ascii := list_ascii_of_string s.

(** The extended format [YYYY-MM-DDThh:mm:ss]. *)
Definition parse_iso8601 (s : string) : option datetime :=
  match characters s with
  | [y1; y2; y3; y4; s1; m1; m2; s2; d1; d2; t; h1; h2; s3; n1; n2; s4; c1; c2] =>
      if Ascii.eqb s1 "-" && Ascii.eqb s2 "-" && Ascii.eqb t "T"
         && Ascii.eqb s3 ":" && Ascii.eqb s4 ":"
      then
        match number4 y1 y2 y3 y4, number2 m1 m2, number2 d1 d2,
              number2 h1 h2, number2 n1 n2, number2 c1 c2 with
        | Some y, Some m, Some d, Some h, Some n, Some c =>
            Some {| year := y; month := m; day := d;
                    hour := h; minute := n; second := c |}
        | _, _, _, _, _, _ => None
        end
      else None
  | _ => None
  end.

Definition is_iso8601 (s : string) : bool :=
  match parse_iso8601 s with
  | Some d => valid_datetime d
  | None => false
  end.

(** ** Worlds and tables of the examples *)

(** The hundredth nearest to the exact value of the float is the upper
    one of the two it lies between. *)
Definition nearest (f : float) : bool :=
  match Prim2SF f with
  | S754_finite sign m e =>
      if 0 <=? e then false
      else
        let n := (if sign then Z.neg m else Z.pos m) * 100 in
        2 ^ (- e) <=? 2 * (n mod 2 ^ (- e))
  | _ => false
  end.

(** The text is a string of at most 65535 bytes for [TEXT] and the
    emotion one of at most 50 for [VARCHAR(50)], or they are integers. *)
Definition fits (text emotion score : pyval) : bool :=
  let short (n : Z) (v : pyval) :=
    match v with
    | PStr s => Z.of_nat (String.length s) <=? n
    | PFloat _ => false
    | _ => true
    end in
  short 65535 text && short 50 emotion.

(** An integer in decimal digits, [True] as 1 and [False] as 0. *)
Definition digits (v : pyval) : string :=
  match v with
  | PInt n => NilZero.string_of_int (Z.to_int n)
  | PBool true => "1"
  | _ => "0"
  end.

Definition classified (label : string) (score : float) : pyval :=
  PDict [(PStr "label", PStr label); (PStr "score", PFloat score)].

Definition noon : datetime :=
  {| year := 2025; month := 3; day := 14; hour := 12; minute := 0; second := 0 |}.

(** Everything works; the classifier answers with [result]; the server
    takes the text and the emotion as strings that fit or as integers,
    rounds the score to the nearest hundredth and reads no number in a
    string; rows of one second come back in the order of their ids. *)
Definition working (result : pyval) : world :=
  {| requests_post := fun _ => Decoded result;
     connect_ok := true;
     statement_ok := fits;
     number_text := digits;
     text_decimal := fun _ => None;
     rounds_up := nearest;
     commit_ok := true;
     current_timestamp := noon;
     select_ok := true;
     tie_before := fun a b => id a <? id b |}.

Definition thrilled : pyval :=
  PList [PList [classified "joy" 0.92; classified "neutral" 0.05]].

Definition joy_scores : list (string * float) :=
  [("joy", 0.92%float); ("neutral", 0.05%float)].

Definition empty_table : table := {| rows := []; auto_increment := 1 |}.

(** The table after [n] submissions of [text] to [w]. *)
Fixpoint submitted (w : world) (text : string) (n : nat) : table :=
  match n with
  | O => empty_table
  | S n' => after (add_entry w (request (PStr text)) (submitted w text n'))
  end.

(** The server refuses the insert. *)
Definition refusing (result : pyval) : world :=
  {| requests_post := fun _ => Decoded result;
     connect_ok := true;
     statement_ok := fun _ _ _ => false;
     number_text := digits;
     text_decimal := fun _ => None;
     rounds_up := nearest;
     commit_ok := true;
     current_timestamp := noon;
     select_ok := true;
     tie_before := fun a b => id a <? id b |}.

(** The classifier's items carry no label. *)
Definition unlabelled : pyval :=
  PList [PList [PDict [(PStr "score", PFloat 0.9)]]].

(** ** Provisioning the database: [get_db_connection], [setup_database]
    and the entry point *)

Module Provisioning.

Definition DB_NAME : string := "mood_journal_db".

(** [os.getenv(name, default)] *)
Definition getenv (environ : string -> option string) (name default : string)
    : string :=
  match environ name with
  | Some value => value
  | None => default
  end.

Definition DB_CONFIG (environ : string -> option string)
    : list (string * string) :=
  [("user", getenv environ "MYSQL_USER" "root");
   ("password", getenv environ "MYSQL_PASSWORD" "");
   ("host", getenv environ "MYSQL_HOST" "localhost")].

(** What the MySQL server has of the application's data. *)
Inductive server : Type :=
| NoDatabase
| NoTable
| Ready (tbl : table).

(** The behaviour of the server while the application starts:
    [accepts] is whether it lets a client with these parameters in. *)
Record mysql : Type := {
  accepts : list (string * string) -> bool;
  create_database_ok : bool;
  create_table_ok : bool;
  ddl_commit_ok : bool
}.

Inductive call : Type :=
| Connect (config : list (string * string)) (opened : bool)
| CreateDatabase
| CreateTable
| Commit
| Close.

(** [config = DB_CONFIG.copy()], with [config['database'] = database]
    when a name is given and is not empty. *)
Definition config_for (environ : string -> option string)
    (database : option string) : list (string * string) :=
  match database with
  | Some name =>
      if String.eqb name "" then DB_CONFIG environ
      else DB_CONFIG environ ++ [("database", name)]
  | None => DB_CONFIG environ
  end.

Definition names_database (config : list (string * string)) : bool :=
  existsb (fun kv => String.eqb (fst kv) "database" && String.eqb (snd kv) DB_NAME)
          config.

Definition has_database (srv : server) : bool :=
  match srv with
  | NoDatabase => false
  | _ => true
  end.

(** [mysql.connector.connect] with the parameters of [config] does not
    raise: the server lets
    the client in, and the database asked for exists. *)
Definition connects (m : mysql) (srv : server) (config : list (string * string))
    : bool :=
  accepts m config && (negb (names_database config) || has_database srv).

(** [get_db_connection(database)]: the connection, known by its
    parameters, or [None]. *)
Definition get_db_connection (m : mysql) (environ : string -> option string)
    (srv : server) (database : option string)
    : option (list (string * string)) :=
  let config := config_for environ database in
  if connects m srv config then Some config else None.

(** [CREATE DATABASE IF NOT EXISTS `mood_journal_db`] *)
Definition create_database (srv : server) : server :=
  match srv with
  | NoDatabase => NoTable
  | _ => srv
  end.

(** [CREATE TABLE IF NOT EXISTS journal_entries (...)], sent on a
    connection to the database: the new table is empty and its first id
    is 1. *)
Definition create_table (srv : server) : server :=
  match srv with
  | NoDatabase => NoDatabase
  | NoTable => Ready {| rows := []; auto_increment := 1 |}
  | Ready tbl => Ready tbl
  end.

Record setup : Type := {
  result : bool;
  server_after : server;
  calls : list call
}.

(** [setup_database()].  The two statements take effect when they are
    executed; the [finally] clause closes the connection that is open. *)
Definition setup_database (m : mysql) (environ : string -> option string)
    (srv : server) : setup :=
  match get_db_connection m environ srv None with
  | None =>
      {| result := false; server_after := srv;
         calls := [Connect (config_for environ None) false] |}
  | Some c1 =>
      if negb (create_database_ok m) then
        {| result := false; server_after := srv;
           calls := [Connect c1 true; CreateDatabase; Close] |}
      else
        let srv1 := create_database srv in
        match get_db_connection m environ srv1 (Some DB_NAME) with
        | None =>
            {| result := false; server_after := srv1;
               calls := [Connect c1 true; CreateDatabase; Close;
                         Connect (config_for environ (Some DB_NAME)) false] |}
        | Some c2 =>
            if negb (create_table_ok m) then
              {| result := false; server_after := srv1;
                 calls := [Connect c1 true; CreateDatabase; Close;
                           Connect c2 true; CreateTable; Close] |}
            else
              let srv2 := create_table srv1 in
              {| result := ddl_commit_ok m; server_after := srv2;
                 calls := [Connect c1 true; CreateDatabase; Close;
                           Connect c2 true; CreateTable; Commit; Close] |}
        end
  end.

(** The entry point: the application is served when the setup succeeded,
    and the process ends after a message when it did not. *)
Inductive startup : Type :=
| Exiting (message : string)
| Serving (srv : server).

Definition main (m : mysql) (environ : string -> option string) (srv : server)
    : startup :=
  let s := setup_database m environ srv in
  if negb (result s) then Exiting "Exiting due to database setup failure."
  else Serving (server_after s).

(** Statements run on an open connection, one connection is open at a
    time, and none is open at the end. *)
Fixpoint well_bracketed (opened : bool) (tr : list call) : bool :=
  match tr with
  | [] => negb opened
  | Connect _ ok :: tr' => negb opened && well_bracketed ok tr'
  | Close :: tr' => opened && well_bracketed false tr'
  | _ :: tr' => opened && well_bracketed true tr'
  end.

End Provisioning.

(** ** Notions of the further properties *)

(** Where a handler is with its connection: it has not tried to open
    one, it has one open, or it is done with the database. *)
Inductive phase : Type :=
| Before
| Opened
| After.

(** The calls of a handler are in order: requests to the classifier come
    first, the handler tries to connect once at most, it sends
    statements on the open connection only and closes it, after which
    it calls nothing.  [connected] is whether the attempt to connect
    succeeds. *)
Fixpoint session (connected : bool) (p : phase) (tr : list event) : bool :=
  match tr with
  | [] => match p with Opened => false | _ => true end
  | Post _ :: tr' =>
      match p with Before => session connected Before tr' | _ => false end
  | Connect :: tr' =>
      match p with
      | Before => session connected (if connected then Opened else After) tr'
      | _ => false
      end
  | Close :: tr' =>
      match p with Opened => session connected After tr' | _ => false end
  | _ :: tr' =>
      match p with Opened => session connected Opened tr' | _ => false end
  end.

(** The attempts to connect in a trace. *)
Definition connections (tr : list event) : list event :=
  filter (fun ev => match ev with Connect => true | _ => false end) tr.

(** The ids grow with the insertions and stay below the counter, and
    every timestamp is one a [datetime] can hold. *)
Definition consistent (tbl : table) : Prop :=
  StronglySorted Z.lt (map id (rows tbl))
  /\ Forall (fun r => id r < auto_increment tbl) (rows tbl)
  /\ Forall (fun r => valid_datetime (timestamp r) = true) (rows tbl).

(** The items of a classifier result, each with a label and a score. *)
Definition items (scores : list (string * float)) : list pyval :=
  map (fun ls => classified (fst ls) (snd ls)) scores.

(** [label] gets [score], in its place when it is there already. *)
Fixpoint upsert (acc : list (string * float)) (label : string) (score : float)
    : list (string * float) :=
  match acc with
  | [] => [(label, score)]
  | (l, s) :: acc' =>
      if String.eqb l label then (l, score) :: acc'
      else (l, s) :: upsert acc' label score
  end.

(** The classifier is not reached. *)
Definition offline : world :=
  {| requests_post := fun _ => RequestException;
     connect_ok := true;
     statement_ok := fits;
     number_text := digits;
     text_decimal := fun _ => None;
     rounds_up := nearest;
     commit_ok := true;
     current_timestamp := noon;
     select_ok := true;
     tie_before := fun a b => id a <? id b |}.

(** The database is not reached. *)
Definition disconnected (result : pyval) : world :=
  {| requests_post := fun _ => Decoded result;
     connect_ok := false;
     statement_ok := fits;
     number_text := digits;
     text_decimal := fun _ => None;
     rounds_up := nearest;
     commit_ok := true;
     current_timestamp := noon;
     select_ok := true;
     tie_before := fun a b => id a <? id b |}.

(** A server that lets everyone in and runs every statement. *)
Definition obliging : Provisioning.mysql :=
  {| Provisioning.accepts := fun _ => true;
     Provisioning.create_database_ok := true;
     Provisioning.create_table_ok := true;
     Provisioning.ddl_commit_ok := true |}.

Definition no_environment : string -> option string := fun _ => None.

(** ** Exceptions of the interpreter *)

(** Induction on values that goes through the elements of lists and the
    keys and values of dicts. *)
Section PyvalInduction.
Variable P : pyval -> Prop.
Hypothesis none : P PNone.
Hypothesis boolean : forall b, P (PBool b).
Hypothesis int : forall n, P (PInt n).
Hypothesis flt : forall f, P (PFloat f).
Hypothesis str : forall s, P (PStr s).
Hypothesis lst : forall xs, Forall P xs -> P (PList xs).
Hypothesis dct :
  forall kvs, Forall (fun kv => P (fst kv) /\ P (snd kv)) kvs -> P (PDict kvs).

Fixpoint pyval_nested_ind (v : pyval) : P v :=
  match v with
  | PNone => none
  | PBool b => boolean b
  | PInt n => int n
  | PFloat f => flt f
  | PStr s => str s
  | PList xs =>
      lst xs ((fix all (xs : list pyval) : Forall P xs :=
                 match xs with
                 | [] => Forall_nil P
                 | x :: xs' => Forall_cons x (pyval_nested_ind x) (all xs')
                 end) xs)
  | PDict kvs =>
      dct kvs ((fix all (kvs : list (pyval * pyval))
                  : Forall (fun kv => P (fst kv) /\ P (snd kv)) kvs :=
                  match kvs with
                  | [] => Forall_nil _
                  | (k, v) :: kvs' =>
                      Forall_cons (k, v)
                        (conj (pyval_nested_ind k) (pyval_nested_ind v))
                        (all kvs')
                  end) kvs)
  end.
End PyvalInduction.

Lemma gt_raises_TypeError a : forall rhs e, gt a rhs = raise e -> e = TypeError.
Proof.
  induction a using pyval_nested_ind; intros rhs e;
    try (destruct rhs; simpl; unfold raise, ret; congruence).
  destruct rhs as [| | | | |ys|]; simpl; try (unfold raise, ret; congruence).
  revert ys. induction H as [|x xs Hx Hxs IH]; intros [|y ys]; simpl;
    try (unfold raise, ret; congruence).
  destruct (same x y); [apply IH|apply Hx].
Qed.

Lemma max_loop_raises_TypeError f rest :
  forall best best_key e, max_loop f best best_key rest = raise e -> e = TypeError.
Proof.
  induction rest as [|x rest IH]; simpl; intros best best_key e.
  - discriminate.
  - destruct (gt (f x) best_key) as [e'|[|]] eqn:Hgt; simpl.
    + intros H. inversion H; subst. eapply gt_raises_TypeError; eauto.
    + apply IH.
    + apply IH.
Qed.

(** [analyze_emotion] returns [None] or a dict. *)
Lemma analyze_emotion_returns w text v :
  fst (analyze_emotion w text) = ret v -> v = PNone \/ exists d, v = PDict d.
Proof.
  unfold analyze_emotion. simpl.
  destruct (requests_post w (payload text));
    try (intros H; inversion H; now left); try discriminate.
  destruct (truthy result && isinstance_list result && isinstance_list (item0 result));
    [|intros H; inversion H; now left].
  destruct (dict_comp _ _ _ _); simpl; [discriminate|].
  intros H; inversion H. right. eauto.
Qed.

Lemma primary_no_ValueError v :
  truthy v = true -> primary v <> raise ValueError.
Proof.
  destruct v; simpl; try discriminate.
  destruct kvs as [|[k v] kvs]; [discriminate|]. intros _.
  unfold max_by. simpl keys. unfold bind, raise, ret.
  match goal with |- context [max_loop ?f ?x ?y ?z] =>
    destruct (max_loop f x y z) as [e|m] eqn:Hm end.
  - apply max_loop_raises_TypeError in Hm. subst. discriminate.
  - unfold subscript, raise, ret. destruct (lookup _ m) as [score|]; [|discriminate].
    destruct score; simpl; discriminate.
Qed.

(** ** Order of the floating-point numbers *)














(** ** The first maximum *)

Lemma lookup_of_scores scores label score :
  NoDup (map fst scores) -> In (label, score) scores ->
  lookup (of_scores scores) (PStr label) = Some (PFloat score).
Proof.
  induction scores as [|[l s] scores IH]; simpl; intros Hnd Hin; [easy|].
  inversion Hnd as [|? ? Hnotin Hnd']; subst.
  destruct Hin as [Heq|Hin].
  - inversion Heq; subst. now rewrite String.eqb_refl.
  - destruct (String.eqb_spec l label) as [->|_].
    + exfalso. apply Hnotin. now apply (in_map fst) in Hin.
    + now apply IH.
Qed.




(** ** The recent listing *)

Lemma place_permutation before r l : Permutation (place before r l) (r :: l).
Proof.
  induction l as [|x l IH]; simpl; [reflexivity|].
  destruct (before r x); [reflexivity|].
  rewrite IH. apply perm_swap.
Qed.

Lemma order_by_permutation tie rs :
  Permutation (order_by_timestamp_desc tie rs) rs.
Proof.
  induction rs as [|r rs IH]; simpl; [reflexivity|].
  rewrite place_permutation. now constructor.
Qed.

Lemma precedes_newer tie a b : precedes tie a b = true -> newer_or_same a b.
Proof. unfold precedes, newer_or_same. lia. Qed.

Lemma not_precedes_newer tie a b : precedes tie a b = false -> newer_or_same b a.
Proof. unfold precedes, newer_or_same. lia. Qed.

Lemma newer_or_same_trans a b c :
  newer_or_same a b -> newer_or_same b c -> newer_or_same a c.
Proof. unfold newer_or_same. lia. Qed.

Lemma place_sorted tie r l :
  StronglySorted newer_or_same l ->
  StronglySorted newer_or_same (place (precedes tie) r l).
Proof.
  induction 1 as [|x l Hsorted IH Hx]; simpl.
  - repeat constructor.
  - destruct (precedes tie r x) eqn:Hp.
    + apply precedes_newer in Hp.
      constructor; [now constructor|].
      constructor; [exact Hp|].
      eapply Forall_impl; [|exact Hx].
      intros y Hy. now apply (newer_or_same_trans r x y).
    + apply not_precedes_newer in Hp.
      constructor; [exact IH|].
      apply (Permutation_Forall (Permutation_sym (place_permutation _ r l))).
      now constructor.
Qed.

Lemma order_by_sorted tie rs :
  StronglySorted newer_or_same (order_by_timestamp_desc tie rs).
Proof.
  induction rs as [|r rs IH]; simpl; [constructor|now apply place_sorted].
Qed.

Lemma sorted_split (l1 l2 : list row) :
  StronglySorted newer_or_same (l1 ++ l2) ->
  StronglySorted newer_or_same l1
  /\ forall a b, In a l1 -> In b l2 -> newer_or_same a b.
Proof.
  induction l1 as [|x l1 IH]; simpl; intros Hs.
  - split; [constructor|contradiction].
  - inversion Hs as [|? ? Hs' Hx]; subst.
    destruct (IH Hs') as [Hl1 Hcross].
    apply Forall_app in Hx. destruct Hx as [Hx1 Hx2].
    split; [now constructor|].
    intros a b [->|Ha] Hb.
    + rewrite Forall_forall in Hx2. now apply Hx2.
    + now apply Hcross.
Qed.

Lemma listed_when_few_newer (r : row) (l : list row) (n : nat) :
  StronglySorted newer_or_same l ->
  In r l ->
  (List.length (not_older (timestamp r) l) <= n)%nat ->
  In r (firstn n l).
Proof.
  intros Hs Hin Hcount.
  destruct (in_split r l Hin) as (l1 & l2 & ->).
  destruct (sorted_split l1 (r :: l2) Hs) as [_ Hcross].
  assert (Hall : not_older (timestamp r) l1 = l1).
  { unfold not_older. apply forallb_filter_id. apply forallb_forall.
    intros a Ha. specialize (Hcross a r Ha (or_introl eq_refl)).
    unfold newer_or_same in Hcross. lia. }
  unfold not_older in *. rewrite filter_app, Hall in Hcount. simpl in Hcount.
  rewrite Z.leb_refl in Hcount. simpl in Hcount.
  rewrite length_app in Hcount. simpl in Hcount.
  rewrite firstn_app. apply in_or_app. right.
  destruct (n - List.length l1)%nat eqn:Hn; [lia|]. now left.
Qed.

(** ** Timestamps as text *)

Lemma digit_value_digit n : digit_value (digit n) = Some (n mod 10).
Proof.
  unfold digit.
  assert (H : 0 <= n mod 10 < 10) by (apply Z.mod_pos_bound; lia).
  generalize dependent (n mod 10). intros x H.
  assert (Hx : x = 0 \/ x = 1 \/ x = 2 \/ x = 3 \/ x = 4
               \/ x = 5 \/ x = 6 \/ x = 7 \/ x = 8 \/ x = 9) by lia.
  repeat (destruct Hx as [->|Hx]; [reflexivity|]). now subst.
Qed.

Lemma number2_digits n :
  0 <= n < 100 -> number2 (digit (n / 10)) (digit n) = Some n.
Proof.
  intros H. unfold number2. rewrite !digit_value_digit. f_equal.
  Z.div_mod_to_equations. lia.
Qed.

Lemma number4_digits n :
  0 <= n < 10000 ->
  number4 (digit (n / 1000)) (digit (n / 100)) (digit (n / 10)) (digit n) = Some n.
Proof.
  intros H. unfold number4, number2. rewrite !digit_value_digit. f_equal.
  Z.div_mod_to_equations. lia.
Qed.

Lemma valid_datetime_bounds d :
  valid_datetime d = true ->
  0 <= year d < 10000 /\ 0 <= month d < 100 /\ 0 <= day d < 100
  /\ 0 <= hour d < 100 /\ 0 <= minute d < 100 /\ 0 <= second d < 100.
Proof.
  unfold valid_datetime, days_in_month. intros H.
  repeat (apply andb_prop in H; destruct H as [H ?]).
  destruct (month d =? 2); [destruct (leap_year (year d))|];
    [| |destruct ((month d =? 4) || (month d =? 6) || (month d =? 9) || (month d =? 11))];
    lia.
Qed.

Lemma parse_isoformat d :
  valid_datetime d = true -> parse_iso8601 (isoformat d) = Some d.
Proof.
  intros H. apply valid_datetime_bounds in H.
  destruct H as (Hy & Hm & Hd & Hh & Hn & Hs).
  unfold parse_iso8601, isoformat, pad4, pad2, characters.
  cbn [append list_ascii_of_string].
  cbn [Ascii.eqb Bool.eqb andb].
  rewrite number4_digits, !number2_digits by assumption.
  now destruct d.
Qed.

Lemma isoformat_is_iso8601 d :
  valid_datetime d = true -> is_iso8601 (isoformat d) = true.
Proof.
  intros H. unfold is_iso8601. now rewrite parse_isoformat.
Qed.

(** ** The mapping [analyze_emotion] builds *)

Lemma store_new_label acc label score :
  ~ In label (map fst acc) ->
  store (of_scores acc) (PStr label) (PFloat score)
  = of_scores (acc ++ [(label, score)]).
Proof.
  induction acc as [|[l s] acc IH]; simpl; intros Hnew; [reflexivity|].
  destruct (String.eqb_spec l label) as [->|_]; [tauto|].
  f_equal. apply IH. tauto.
Qed.

Lemma dict_comp_of_scores scores :
  forall acc,
    NoDup (map fst (acc ++ scores)) ->
    dict_comp (fun item => getitem item "label")
              (fun item => getitem item "score")
              (map (fun ls => classified (fst ls) (snd ls)) scores)
              (of_scores acc)
    = ret (of_scores (acc ++ scores)).
Proof.
  induction scores as [|[l s] scores IH]; intros acc Hnd.
  - now rewrite app_nil_r.
  - cbn [map fst snd dict_comp]. unfold classified at 1 2.
    cbn [getitem lookup same String.eqb Ascii.eqb Bool.eqb bind ret hashable].
    rewrite store_new_label.
    + replace (acc ++ (l, s) :: scores) with ((acc ++ [(l, s)]) ++ scores) in *
        by now rewrite <- app_assoc.
      now apply IH.
    + rewrite map_app in Hnd. apply NoDup_remove_2 in Hnd.
      intros Hin. apply Hnd. apply in_or_app. now left.
Qed.

(** A result of the expected shape with distinct labels gives the
    mapping of these labels to their scores, in the order of the items. *)
Lemma analyze_emotion_of_scores w text scores :
  requests_post w (payload text)
  = Decoded (PList [PList (map (fun ls => classified (fst ls) (snd ls)) scores)]) ->
  NoDup (map fst scores) ->
  fst (analyze_emotion w text) = ret (PDict (of_scores scores)).
Proof.
  intros Hpost Hnd. unfold analyze_emotion. simpl fst. rewrite Hpost.
  cbn [truthy isinstance_list item0 elements hd andb].
  change (@nil (pyval * pyval)) with (of_scores []).
  now rewrite (dict_comp_of_scores scores []).
Qed.

(** ** The values of the columns *)

Lemma decimal_5_2_within (up : bool) (f : float) (s : Z) :
  decimal_5_2 up f = Some s -> within_a_hundredth f s.
Proof.
  unfold decimal_5_2, within_a_hundredth.
  destruct (Prim2SF f) as [sign|sign| |sign m e]; try discriminate.
  - intros H. inversion H. simpl. lia.
  - set (v := if sign then Z.neg m else Z.pos m). cbv zeta.
    destruct (0 <=? e) eqn:He.
    + simpl orb. cbv iota.
      destruct ((-99999 <=? v * 100 * 2 ^ e) && (v * 100 * 2 ^ e <=? 99999));
        [|discriminate].
      intros H. inversion H. subst s.
      replace (100 * v * 2 ^ e - v * 100 * 2 ^ e) with 0 by ring. simpl. lia.
    + assert (Hd : 0 < 2 ^ (- e)) by (apply Z.pow_pos_nonneg; lia).
      pose proof (Z.div_mod (v * 100) (2 ^ (- e))) as Hdiv.
      pose proof (Z.mod_pos_bound (v * 100) (2 ^ (- e)) Hd) as Hmod.
      specialize (Hdiv ltac:(lia)).
      generalize dependent (2 ^ (- e)). intros d.
      generalize ((v * 100) / d), ((v * 100) mod d). intros q r Hd Hdiv Hmod.
      destruct ((r =? 0) || negb up).
      * destruct ((-99999 <=? q) && (q <=? 99999)); [|discriminate].
        intros H. inversion H. subst s. nia.
      * destruct ((-99999 <=? q + 1) && (q + 1 <=? 99999)); [|discriminate].
        intros H. inversion H. subst s. nia.
Qed.

Lemma column_values_some (w : world) (text emotion score : pyval)
    (t e : string) (s : Z) :
  column_values w text emotion score = Some (t, e, s) ->
  statement_ok w text emotion score = true
  /\ text_column w text = Some t
  /\ text_column w emotion = Some e
  /\ score_column w score = Some s.
Proof.
  unfold column_values.
  destruct (statement_ok w text emotion score); [|discriminate].
  destruct (text_column w text), (text_column w emotion), (score_column w score);
    try discriminate.
  intros H. inversion H. now repeat split.
Qed.

(** A string is stored as it is, a float within 0.01. *)
Lemma column_values_of_strings (w : world) (T E : string) (S : float)
    (t e : string) (s : Z) :
  column_values w (PStr T) (PStr E) (PFloat S) = Some (t, e, s) ->
  t = T /\ e = E /\ within_a_hundredth S s.
Proof.
  intros H. apply column_values_some in H.
  destruct H as (_ & Ht & He & Hs). simpl in Ht, He, Hs.
  inversion Ht. inversion He. split; [reflexivity|]. split; [reflexivity|].
  now apply decimal_5_2_within in Hs.
Qed.


(** ** The paths through [add_entry] *)

Lemma add_entry_no_text w data tbl text :
  get data (PStr "text") = ret text ->
  truthy text = false ->
  add_entry w data tbl = respond 400 (error "No text provided") tbl [].
Proof.
  intros Hget Htext. unfold add_entry. rewrite Hget. unfold ret.
  now rewrite Htext.
Qed.

Lemma add_entry_not_analyzed w data tbl text emotion_data :
  get data (PStr "text") = ret text ->
  truthy text = true ->
  fst (analyze_emotion w text) = ret emotion_data ->
  truthy emotion_data = false ->
  add_entry w data tbl
  = respond 500 (error "Failed to analyze emotion") tbl [Post (payload text)].
Proof.
  intros Hget Htext Hfst Hdata. unfold add_entry. rewrite Hget. unfold ret in *.
  rewrite Htext. simpl negb. cbv iota.
  change (analyze_emotion w text)
    with (fst (analyze_emotion w text), [Post (payload text)]).
  rewrite Hfst. now rewrite Hdata.
Qed.

Lemma add_entry_saves w data tbl text emotion_data emotion score :
  get data (PStr "text") = ret text ->
  truthy text = true ->
  fst (analyze_emotion w text) = ret emotion_data ->
  truthy emotion_data = true ->
  primary emotion_data = ret (emotion, score) ->
  add_entry w data tbl
  = {| answer := answer (save_entry w tbl text emotion score);
       after := after (save_entry w tbl text emotion score);
       trace := Post (payload text) :: trace (save_entry w tbl text emotion score) |}.
Proof.
  intros Hget Htext Hfst Hdata Hprimary. unfold add_entry. rewrite Hget.
  unfold ret in *. rewrite Htext. simpl negb. cbv iota.
  change (analyze_emotion w text)
    with (fst (analyze_emotion w text), [Post (payload text)]).
  rewrite Hfst. rewrite Hdata. simpl negb. cbv iota.
  now rewrite Hprimary.
Qed.

Lemma add_entry_success w data tbl text emotion_data emotion score t e s :
  get data (PStr "text") = ret text ->
  truthy text = true ->
  fst (analyze_emotion w text) = ret emotion_data ->
  truthy emotion_data = true ->
  primary emotion_data = ret (emotion, score) ->
  connect_ok w = true ->
  column_values w text emotion score = Some (t, e, s) ->
  commit_ok w = true ->
  add_entry w data tbl
  = {| answer := Response 200 (saved emotion score);
       after := {| rows := rows tbl
                           ++ [{| id := auto_increment tbl;
                                  entry_text := t;
                                  primary_emotion := e;
                                  primary_score := s;
                                  timestamp := current_timestamp w |}];
                   auto_increment := auto_increment tbl + 1 |};
       trace := [Post (payload text); Connect; Insert text emotion score;
                 Commit; Close] |}.
Proof.
  intros Hget Htext Hfst Hdata Hprimary Hconnect Hcolumns Hcommit.
  rewrite (add_entry_saves w data tbl text emotion_data emotion score) by assumption.
  unfold save_entry, get_db_connection, execute_insert, commit.
  now rewrite Hconnect, Hcolumns, Hcommit.
Qed.

Lemma lookup_request text : get (request text) (PStr "text") = ret text.
Proof. reflexivity. Qed.

(** ** What the mapping of [analyze_emotion] is made of *)

Lemma same_refl (k : pyval) : hashable k = true -> same k k = true.
Proof.
  destruct k; simpl; try discriminate; intros _; try reflexivity.
  - now destruct b.
  - apply Z.eqb_refl.
  - unfold is_nan. now destruct (PrimFloat.eqb f f).
  - apply String.eqb_refl.
Qed.

Lemma store_keys_hashable (d : dict) (k v : pyval) :
  hashable k = true ->
  Forall (fun kv => hashable (fst kv) = true) d ->
  Forall (fun kv => hashable (fst kv) = true) (store d k v).
Proof.
  intros Hk. induction 1 as [|[k' v'] d Hk' Hd IH]; simpl.
  - now repeat constructor.
  - destruct (same k' k); constructor; assumption.
Qed.

Lemma dict_comp_keys_hashable key value items :
  forall acc d,
    Forall (fun kv => hashable (fst kv) = true) acc ->
    dict_comp key value items acc = ret d ->
    Forall (fun kv => hashable (fst kv) = true) d.
Proof.
  induction items as [|item items IH]; simpl; intros acc d Hacc Hrun.
  - inversion Hrun; subst. exact Hacc.
  - unfold bind in Hrun.
    destruct (key item) as [e|k]; [discriminate|].
    destruct (value item) as [e|v]; [discriminate|].
    destruct (hashable k) eqn:Hk; [|discriminate].
    apply (IH (store acc k v)); [|exact Hrun].
    now apply store_keys_hashable.
Qed.

Lemma dict_comp_raises key value items :
  (forall item e, key item = raise e -> e = KeyError \/ e = TypeError) ->
  (forall item e, value item = raise e -> e = KeyError \/ e = TypeError) ->
  forall acc e,
    dict_comp key value items acc = raise e -> e = KeyError \/ e = TypeError.
Proof.
  intros Hkey Hvalue.
  induction items as [|item items IH]; simpl; intros acc e Hrun.
  - discriminate.
  - unfold bind in Hrun.
    destruct (key item) as [e'|k] eqn:Hk.
    { inversion Hrun; subst. now apply (Hkey item). }
    destruct (value item) as [e'|v] eqn:Hv.
    { inversion Hrun; subst. now apply (Hvalue item). }
    destruct (hashable k).
    + now apply (IH (store acc k v)).
    + inversion Hrun. now right.
Qed.

Lemma getitem_raises o k e :
  getitem o k = raise e -> e = KeyError \/ e = TypeError.
Proof.
  destruct o; simpl; intros H; try (inversion H; now right).
  destruct (lookup kvs (PStr k)); inversion H. now left.
Qed.

Lemma lookup_own_key (d : dict) (k : pyval) :
  In k (keys d) -> same k k = true -> lookup d k <> None.
Proof.
  induction d as [|[k' v'] d IH]; simpl; intros Hin Hsame; [contradiction|].
  destruct (same k' k) eqn:Hk'; [discriminate|].
  apply IH; [|exact Hsame].
  destruct Hin as [->|Hin]; [congruence|exact Hin].
Qed.

Lemma max_loop_returns f rest :
  forall best best_key m,
    max_loop f best best_key rest = ret m -> m = best \/ In m rest.
Proof.
  induction rest as [|x rest IH]; simpl; intros best best_key m Hrun.
  - inversion Hrun. now left.
  - unfold bind in Hrun.
    destruct (gt (f x) best_key) as [e|[|]]; [discriminate| |].
    + destruct (IH _ _ _ Hrun) as [->|Hin]; [right; now left|right; now right].
    + destruct (IH _ _ _ Hrun) as [->|Hin]; [now left|right; now right].
Qed.

Lemma primary_raises_TypeError (d : dict) (e : pyexn) :
  d <> [] ->
  Forall (fun kv => hashable (fst kv) = true) d ->
  primary (PDict d) = raise e -> e = TypeError.
Proof.
  intros Hne Hkeys Hrun. unfold primary, max_by in Hrun.
  destruct d as [|[k v] d']; [congruence|].
  remember ((k, v) :: d') as d eqn:Hd.
  assert (Hk : keys d = k :: keys d') by now subst.
  rewrite Hk in Hrun. unfold bind in Hrun.
  destruct (max_loop (dict_get d) k (dict_get d k) (keys d')) as [e'|m] eqn:Hmax.
  - inversion Hrun; subst e'. now apply max_loop_raises_TypeError in Hmax.
  - apply max_loop_returns in Hmax.
    assert (Hin : In m (keys d)).
    { rewrite Hk. destruct Hmax as [->|Hmax]; [now left|now right]. }
    assert (Hm : hashable m = true).
    { unfold keys in Hin. apply in_map_iff in Hin.
      destruct Hin as ([k' v'] & <- & Hin).
      rewrite Forall_forall in Hkeys. exact (Hkeys _ Hin). }
    pose proof (lookup_own_key d m Hin (same_refl m Hm)) as Hfound.
    unfold subscript in Hrun.
    destruct (lookup d m) as [score|]; [|congruence].
    destruct score; simpl in Hrun; inversion Hrun; reflexivity.
Qed.

Lemma list_of_list (result : pyval) :
  truthy result && isinstance_list result && isinstance_list (item0 result) = true ->
  exists first others, result = PList (PList first :: others).
Proof.
  destruct result as [| | | | |xs|]; simpl;
    rewrite ?andb_false_r; try discriminate.
  destruct xs as [|x others]; simpl; [discriminate|].
  destruct x; simpl; try discriminate. intros _. eauto.
Qed.

(** The outcomes of [analyze_emotion] by the shape of the result. *)
Lemma analyze_emotion_shapes (w : world) (text : pyval) :
  (forall e,
        fst (analyze_emotion w text) = raise e ->
        requests_post w (payload text) = OtherException e
        \/ ((e = KeyError \/ e = TypeError)
            /\ exists first others,
                 requests_post w (payload text)
                 = Decoded (PList (PList first :: others))))
  /\ (forall v,
        fst (analyze_emotion w text) = ret v ->
        v = PNone
        \/ exists d,
             v = PDict d
             /\ Forall (fun kv => hashable (fst kv) = true) d
             /\ exists first others,
                  requests_post w (payload text)
                  = Decoded (PList (PList first :: others))).
Proof.
  unfold analyze_emotion. simpl fst.
  destruct (requests_post w (payload text)) as [| |other|result].
  - split; [discriminate|]. intros v H. inversion H. now left.
  - split; [discriminate|]. intros v H. inversion H. now left.
  - split; [|discriminate]. intros e H. inversion H. now left.
  - destruct (truthy result && isinstance_list result
              && isinstance_list (item0 result)) eqn:Hshape.
    + destruct (list_of_list result Hshape) as (first & others & ->).
      cbn [item0 elements hd].
      split.
      * intros e Hrun. unfold bind in Hrun.
        destruct (dict_comp _ _ first []) as [e'|d] eqn:Hcomp; [|discriminate].
        inversion Hrun; subst e'. right. split; [|now exists first, others].
        apply (dict_comp_raises _ _ first
                 (fun item => getitem_raises item "label")
                 (fun item => getitem_raises item "score") [] e Hcomp).
      * intros v Hrun. unfold bind in Hrun.
        destruct (dict_comp _ _ first []) as [e'|d] eqn:Hcomp; [discriminate|].
        inversion Hrun; subst v. right. exists d.
        split; [reflexivity|]. split; [|now exists first, others].
        exact (dict_comp_keys_hashable _ _ first [] d (Forall_nil _) Hcomp).
    + split; [discriminate|]. intros v H. inversion H. now left.
Qed.


(** ** Every run of [add_entry] *)

(** The four ways through the handler. *)
Lemma add_entry_cases (w : world) (data : pyval) (tbl : table) :
  (exists e, add_entry w data tbl = unhandled e tbl []
             /\ get data (PStr "text") = raise e)
  \/ (exists text,
        get data (PStr "text") = ret text /\ truthy text = false
        /\ add_entry w data tbl = respond 400 (error "No text provided") tbl [])
  \/ (exists text e,
        get data (PStr "text") = ret text /\ truthy text = true
        /\ (fst (analyze_emotion w text) = raise e
            \/ exists emotion_data,
                 fst (analyze_emotion w text) = ret emotion_data
                 /\ truthy emotion_data = true
                 /\ primary emotion_data = raise e)
        /\ add_entry w data tbl = unhandled e tbl [Post (payload text)])
  \/ (exists text emotion_data,
        get data (PStr "text") = ret text /\ truthy text = true
        /\ fst (analyze_emotion w text) = ret emotion_data
        /\ truthy emotion_data = false
        /\ add_entry w data tbl
           = respond 500 (error "Failed to analyze emotion") tbl
                     [Post (payload text)])
  \/ (exists text emotion_data emotion score,
        get data (PStr "text") = ret text /\ truthy text = true
        /\ fst (analyze_emotion w text) = ret emotion_data
        /\ truthy emotion_data = true
        /\ primary emotion_data = ret (emotion, score)
        /\ add_entry w data tbl
           = {| answer := answer (save_entry w tbl text emotion score);
                after := after (save_entry w tbl text emotion score);
                trace := Post (payload text)
                         :: trace (save_entry w tbl text emotion score) |}).
Proof.
  destruct (get data (PStr "text")) as [e|text] eqn:Hget.
  - left. exists e. split; [|reflexivity]. unfold add_entry. now rewrite Hget.
  - right. destruct (truthy text) eqn:Htext.
    + right.
      destruct (fst (analyze_emotion w text)) as [e|emotion_data] eqn:Hfst.
      * left. exists text, e.
        split; [first [reflexivity|assumption]|]. split; [first [reflexivity|assumption]|]. split; [now left|].
        unfold add_entry. rewrite Hget, Htext. simpl negb. cbv iota.
        change (analyze_emotion w text)
          with (fst (analyze_emotion w text), [Post (payload text)]).
        now rewrite Hfst.
      * destruct (truthy emotion_data) eqn:Hdata.
        -- destruct (primary emotion_data) as [e|[emotion score]] eqn:Hprimary.
           ++ left. exists text, e.
              split; [first [reflexivity|assumption]|]. split; [first [reflexivity|assumption]|]. split.
              ** right. now exists emotion_data.
              ** unfold add_entry. rewrite Hget, Htext. simpl negb. cbv iota.
                 change (analyze_emotion w text)
                   with (fst (analyze_emotion w text), [Post (payload text)]).
                 rewrite Hfst, Hdata. simpl negb. cbv iota. now rewrite Hprimary.
           ++ right. right. exists text, emotion_data, emotion, score.
              split; [first [reflexivity|assumption]|]. split; [first [reflexivity|assumption]|].
              split; [first [reflexivity|assumption]|]. split; [first [reflexivity|assumption]|].
              split; [first [reflexivity|assumption]|].
              now apply (add_entry_saves w data tbl text emotion_data).
        -- right. left. exists text, emotion_data.
           split; [first [reflexivity|assumption]|]. split; [first [reflexivity|assumption]|].
           split; [first [reflexivity|assumption]|]. split; [first [reflexivity|assumption]|].
           now apply (add_entry_not_analyzed w data tbl text emotion_data).
    + left. exists text. split; [first [reflexivity|assumption]|]. split; [first [reflexivity|assumption]|].
      now apply (add_entry_no_text w data tbl text).
Qed.

(** What [save_entry] can come to. *)
Lemma save_entry_cases (w : world) (tbl : table) (text emotion score : pyval) :
  (connect_ok w = false
   /\ save_entry w tbl text emotion score
      = respond 500 (error "Database connection failed") tbl [Connect])
  \/ (connect_ok w = true
      /\ column_values w text emotion score = None
      /\ save_entry w tbl text emotion score
         = respond 500 (error "Failed to save entry to database") tbl
                   [Connect; Insert text emotion score; Close])
  \/ (exists t e s,
        connect_ok w = true
        /\ column_values w text emotion score = Some (t, e, s)
        /\ commit_ok w = false
        /\ save_entry w tbl text emotion score
           = respond 500 (error "Failed to save entry to database")
                     {| rows := rows tbl; auto_increment := auto_increment tbl + 1 |}
                     [Connect; Insert text emotion score; Commit; Close])
  \/ (exists t e s,
        connect_ok w = true
        /\ column_values w text emotion score = Some (t, e, s)
        /\ commit_ok w = true
        /\ save_entry w tbl text emotion score
           = respond 200 (saved emotion score)
               {| rows := rows tbl
                          ++ [{| id := auto_increment tbl;
                                 entry_text := t;
                                 primary_emotion := e;
                                 primary_score := s;
                                 timestamp := current_timestamp w |}];
                  auto_increment := auto_increment tbl + 1 |}
               [Connect; Insert text emotion score; Commit; Close]).
Proof.
  unfold save_entry, get_db_connection, execute_insert, commit.
  destruct (connect_ok w); [|now left].
  right.
  destruct (column_values w text emotion score) as [[[t e] s]|]; [|now left].
  right.
  destruct (commit_ok w).
  - right. exists t, e, s. now repeat split.
  - left. exists t, e, s. now repeat split.
Qed.

(** ** The properties *)



(** Against C2 as it is stated.  Two rows written in the same second
    are listed oldest first by a server that returns equal timestamps in
    the order of the ids: the listing is not in the order "newest first,
    and among equal timestamps the one inserted last first". *)
Lemma rows_of_one_second_are_listed_oldest_first :
  map id (select_recent (working thrilled) 30
            (submitted (working thrilled) "note" 2)) = [1; 2]
  /\ map timestamp (select_recent (working thrilled) 30
                      (submitted (working thrilled) "note" 2)) = [noon; noon]
  /\ ~ StronglySorted newest_inserted_first
         (select_recent (working thrilled) 30
            (submitted (working thrilled) "note" 2)).
Proof.
  split; [reflexivity|]. split; [reflexivity|].
  intros Hsorted.
  inversion Hsorted as [|first others _ Hfirst]; subst.
  inversion Hfirst as [|second others' Hbad _]; subst.
  unfold newest_inserted_first in Hbad. vm_compute in Hbad.
  destruct Hbad as [Hbad|[_ Hbad]]; discriminate.
Qed.

(** C2, as the code has it.  For every limit [n] (30 in [get_moods]) the
    recent listing has [n] rows, or all of them when the table has fewer;
    they are in descending order of timestamp, and no row left out is
    newer than a listed one; the order among equal timestamps is the
    server's.  The handler leaves the table as it was and answers with
    the listing for the limit 30. *)
Theorem recent_listing_is_bounded_and_sorted (w : world) (n : nat) (tbl : table) :
  List.length (select_recent w n tbl) = Nat.min n (List.length (rows tbl))
  /\ StronglySorted newer_or_same (select_recent w n tbl)
  /\ (exists older,
        Permutation (select_recent w n tbl ++ older) (rows tbl)
        /\ forall a b,
             In a (select_recent w n tbl) -> In b older -> newer_or_same a b)
  /\ after (get_moods w tbl) = tbl
  /\ (forall es,
        answer (get_moods w tbl) = Response 200 (Entries es) ->
        es = map format_entry (select_recent w 30 tbl)).
Proof.
  unfold select_recent.
  pose proof (order_by_sorted (tie_before w) (rows tbl)) as Hsorted.
  pose proof (order_by_permutation (tie_before w) (rows tbl)) as Hperm.
  rewrite <- (firstn_skipn n (order_by_timestamp_desc (tie_before w) (rows tbl)))
    in Hsorted.
  destruct (sorted_split _ _ Hsorted) as [Hlisted Hcross].
  split; [|split; [|split; [|split]]].
  - rewrite length_firstn. now rewrite (Permutation_length Hperm).
  - exact Hlisted.
  - exists (skipn n (order_by_timestamp_desc (tie_before w) (rows tbl))).
    split; [|exact Hcross]. now rewrite firstn_skipn.
  - unfold get_moods. destruct (get_db_connection w); [|reflexivity].
    now destruct (select_ok w).
  - unfold get_moods. destruct (get_db_connection w); [|discriminate].
    destruct (select_ok w); [|discriminate].
    intros es H. now inversion H.
Qed.

(** C3.  The classifier answers with a list of a list whose item has a
    score and no label: the comprehension raises [KeyError], which
    [analyze_emotion] does not catch and [add_entry] does not either, so
    the client does not get the JSON answer of a failed analysis.  No row
    is written. *)
Theorem unlabelled_item_escapes_the_handler :
  fst (analyze_emotion (working unlabelled) (PStr "rough day")) = raise KeyError
  /\ answer (add_entry (working unlabelled) (request (PStr "rough day"))
               empty_table) = Unhandled KeyError
  /\ answer (add_entry (working unlabelled) (request (PStr "rough day"))
               empty_table)
     <> Response 500 (error "Failed to analyze emotion")
  /\ rows (after (add_entry (working unlabelled) (request (PStr "rough day"))
                    empty_table)) = [].
Proof.
  split; [reflexivity|]. split; [reflexivity|]. split; [discriminate|reflexivity].
Qed.

(** The part of C4 the code does have: a body that is a JSON object
    without a text, or with the empty string for it, is answered with
    status 400 and [{"error": "No text provided"}]; the classifier and
    the database are not called, and the table is as it was. *)
Lemma empty_or_absent_text_is_rejected
    (w : world) (kvs : dict) (tbl : table) :
  lookup kvs (PStr "text") = None \/ lookup kvs (PStr "text") = Some (PStr "") ->
  answer (add_entry w (PDict kvs) tbl) = Response 400 (error "No text provided")
  /\ trace (add_entry w (PDict kvs) tbl) = []
  /\ after (add_entry w (PDict kvs) tbl) = tbl.
Proof.
  intros Htext.
  assert (Hrejected : add_entry w (PDict kvs) tbl
                      = respond 400 (error "No text provided") tbl []).
  { destruct Htext as [Habsent|Hempty].
    - apply (add_entry_no_text w (PDict kvs) tbl PNone); [|reflexivity].
      simpl. unfold dict_get. now rewrite Habsent.
    - apply (add_entry_no_text w (PDict kvs) tbl (PStr "")); [|reflexivity].
      simpl. unfold dict_get. now rewrite Hempty. }
  now rewrite Hrejected.
Qed.

(** C4.  A JSON body that is not an object, such as [null] or [[1, 2]],
    has no text either, and it is not answered with status 400:
    [data.get] raises [AttributeError], which nothing catches.  The
    classifier and the database are not called and the table is as it
    was. *)
Theorem body_without_text_escapes_the_handler (w : world) (tbl : table) :
  answer (add_entry w PNone tbl) = Unhandled AttributeError
  /\ answer (add_entry w (PList [PInt 1; PInt 2]) tbl) = Unhandled AttributeError
  /\ answer (add_entry w PNone tbl) <> Response 400 (error "No text provided")
  /\ answer (add_entry w (PList [PInt 1; PInt 2]) tbl)
     <> Response 400 (error "No text provided")
  /\ trace (add_entry w PNone tbl) = []
  /\ trace (add_entry w (PList [PInt 1; PInt 2]) tbl) = []
  /\ after (add_entry w PNone tbl) = tbl
  /\ after (add_entry w (PList [PInt 1; PInt 2]) tbl) = tbl.
Proof.
  repeat split; discriminate.
Qed.

(** C5.  When the classification succeeded and the insert then fails, at
    the statement or at the commit, the answer is status 500 with
    [{"error": "Failed to save entry to database"}] and nothing else, the
    table has the rows it had, and every listing is what it would have
    been without the submission. *)
Theorem failed_insert_leaves_no_record
    (w : world) (data text emotion_data emotion score : pyval) (tbl : table) :
  get data (PStr "text") = ret text ->
  truthy text = true ->
  fst (analyze_emotion w text) = ret emotion_data ->
  truthy emotion_data = true ->
  primary emotion_data = ret (emotion, score) ->
  connect_ok w = true ->
  column_values w text emotion score = None \/ commit_ok w = false ->
  answer (add_entry w data tbl)
  = Response 500 (error "Failed to save entry to database")
  /\ rows (after (add_entry w data tbl)) = rows tbl
  /\ forall w', answer (get_moods w' (after (add_entry w data tbl)))
                = answer (get_moods w' tbl).
Proof.
  intros Hget Htext Hfst Hdata Hprimary Hconnect Hfails.
  rewrite (add_entry_saves w data tbl text emotion_data emotion score) by assumption.
  unfold save_entry, get_db_connection, execute_insert, commit.
  rewrite Hconnect.
  assert (Hlisting : forall tbl', rows tbl' = rows tbl ->
            forall w', answer (get_moods w' tbl') = answer (get_moods w' tbl)).
  { intros tbl' Hrows w'. unfold get_moods, select_recent. rewrite Hrows.
    destruct (get_db_connection w'); [|reflexivity].
    now destruct (select_ok w'). }
  destruct (column_values w text emotion score) as [[[t e] s]|] eqn:Hcolumns.
  - destruct Hfails as [Hfails|Hfails]; [discriminate|]. rewrite Hfails. simpl.
    split; [reflexivity|]. split; [reflexivity|]. now apply Hlisting.
  - simpl. split; [reflexivity|]. split; [reflexivity|]. now apply Hlisting.
Qed.

Lemma failed_insert_leaves_no_record_witness :
  answer (add_entry (refusing thrilled) (request (PStr "a long day"))
            (submitted (working thrilled) "note" 2))
  = Response 500 (error "Failed to save entry to database")
  /\ rows (after (add_entry (refusing thrilled) (request (PStr "a long day"))
                    (submitted (working thrilled) "note" 2)))
     = rows (submitted (working thrilled) "note" 2)
  /\ forall w',
       answer (get_moods w'
                 (after (add_entry (refusing thrilled)
                           (request (PStr "a long day"))
                           (submitted (working thrilled) "note" 2))))
       = answer (get_moods w' (submitted (working thrilled) "note" 2)).
Proof.
  apply (failed_insert_leaves_no_record (refusing thrilled)
           (request (PStr "a long day")) (PStr "a long day")
           (PDict (of_scores joy_scores)) (PStr "joy") (PFloat 92)
           (submitted (working thrilled) "note" 2)).
  - reflexivity.
  - reflexivity.
  - reflexivity.
  - reflexivity.
  - reflexivity.
  - reflexivity.
  - left. reflexivity.
Defined.

(** The part of C3 the code does have: a result that is not a list, is
    an empty list or does not start with a list is a failed analysis,
    answered with status 500, and nothing is written. *)
Lemma misshapen_result_is_a_failed_analysis
    (w : world) (data text result : pyval) (tbl : table) :
  get data (PStr "text") = ret text ->
  truthy text = true ->
  requests_post w (payload text) = Decoded result ->
  isinstance_list result = false \/ result = PList []
  \/ isinstance_list (item0 result) = false ->
  add_entry w data tbl
  = respond 500 (error "Failed to analyze emotion") tbl [Post (payload text)].
Proof.
  intros Hget Htext Hpost Hshape.
  apply (add_entry_not_analyzed w data tbl text PNone); try assumption; [|reflexivity].
  unfold analyze_emotion. simpl fst. rewrite Hpost.
  destruct Hshape as [H|[H|H]].
  - rewrite H. now rewrite andb_false_r.
  - now rewrite H.
  - rewrite H. now rewrite andb_false_r.
Qed.

(** Against C6 as it is stated.  Thirty-one entries are submitted
    within one second to a server that returns the rows of one second in
    the order of their ids.  The last one is stored, and the listing that
    follows does not have it. *)
Lemma thirty_first_of_one_second_is_not_listed :
  answer (add_entry (working thrilled) (request (PStr "thirty-first"))
            (submitted (working thrilled) "note" 30))
  = Response 200 (saved (PStr "joy") (PFloat 92))
  /\ (exists r,
        In r (rows (after (add_entry (working thrilled)
                             (request (PStr "thirty-first"))
                             (submitted (working thrilled) "note" 30))))
        /\ entry_text r = "thirty-first" /\ id r = 31)
  /\ exists es,
       answer (get_moods (working thrilled)
                 (after (add_entry (working thrilled)
                           (request (PStr "thirty-first"))
                           (submitted (working thrilled) "note" 30))))
       = Response 200 (Entries es)
       /\ List.length es = 30%nat
       /\ forall e, In e es ->
            json_entry_text e <> "thirty-first" /\ json_id e <> 31.
Proof.
  split; [vm_compute; reflexivity|]. split.
  - exists {| id := 31; entry_text := "thirty-first"; primary_emotion := "joy";
              primary_score := 9200; timestamp := noon |}.
    split; [|split; reflexivity].
    vm_compute. do 30 right. now left.
  - eexists. split; [vm_compute; reflexivity|]. split; [reflexivity|].
    apply Forall_forall.
    repeat (constructor; [split; vm_compute; discriminate|]). constructor.
Qed.

Lemma filter_permutation (f : row -> bool) (l l' : list row) :
  Permutation l l' -> Permutation (filter f l) (filter f l').
Proof.
  induction 1 as [|x l l' _ IH|x y l|l l' l'' _ IH1 _ IH2]; simpl.
  - constructor.
  - destruct (f x); [now constructor|exact IH].
  - destruct (f x), (f y); try reflexivity. apply perm_swap.
  - now transitivity (filter f l').
Qed.

Lemma listed_by_get_moods (w : world) (tbl : table) (r : row) :
  In r (rows tbl) ->
  connect_ok w = true ->
  select_ok w = true ->
  (List.length (not_older (timestamp r) (rows tbl)) <= 30)%nat ->
  exists es,
    answer (get_moods w tbl) = Response 200 (Entries es)
    /\ In (format_entry r) es.
Proof.
  intros Hin Hconnect Hselect Hfew.
  unfold get_moods, get_db_connection. rewrite Hconnect, Hselect.
  eexists. split; [reflexivity|].
  apply in_map. unfold select_recent.
  pose proof (order_by_permutation (tie_before w) (rows tbl)) as Hperm.
  apply listed_when_few_newer.
  - apply order_by_sorted.
  - now apply (Permutation_in r (Permutation_sym Hperm)).
  - unfold not_older in *.
    now rewrite (Permutation_length (filter_permutation _ _ _ Hperm)).
Qed.

(** C6, as the code has it.  A record inserted by a submission with the
    text T, the derived emotion E and the score S holds T and E as they
    are and the score to a hundredth, which is within 0.01 of S, with
    the id the table gave it and the server's time.  Any later listing
    of a table that has the record returns it with T, E, this score and
    the timestamp in ISO 8601 form, provided at most thirty records of
    the table, itself included, are as new as it is. *)
Theorem submitted_record_is_listed_among_the_newest
    (w : world) (data emotion_data : pyval) (tbl : table)
    (T E : string) (S : float) (b : body) :
  get data (PStr "text") = ret (PStr T) ->
  T <> "" ->
  fst (analyze_emotion w (PStr T)) = ret emotion_data ->
  truthy emotion_data = true ->
  primary emotion_data = ret (PStr E, PFloat S) ->
  answer (add_entry w data tbl) = Response 200 b ->
  valid_datetime (current_timestamp w) = true ->
  exists s,
    within_a_hundredth S s
    /\ In {| id := auto_increment tbl;
             entry_text := T;
             primary_emotion := E;
             primary_score := s;
             timestamp := current_timestamp w |}
          (rows (after (add_entry w data tbl)))
    /\ parse_iso8601 (isoformat (current_timestamp w)) = Some (current_timestamp w)
    /\ is_iso8601 (isoformat (current_timestamp w)) = true
    /\ forall w' later,
         In {| id := auto_increment tbl;
               entry_text := T;
               primary_emotion := E;
               primary_score := s;
               timestamp := current_timestamp w |} (rows later) ->
         connect_ok w' = true ->
         select_ok w' = true ->
         (List.length (not_older (current_timestamp w) (rows later)) <= 30)%nat ->
         exists es,
           answer (get_moods w' later) = Response 200 (Entries es)
           /\ In {| json_id := auto_increment tbl;
                    json_entry_text := T;
                    json_primary_emotion := E;
                    json_primary_score := s;
                    json_timestamp := isoformat (current_timestamp w) |} es.
Proof.
  intros Hget HT Hfst Hdata Hprimary Hanswer Hvalid.
  assert (Htext : truthy (PStr T) = true).
  { simpl. destruct (String.eqb_spec T ""); [contradiction|reflexivity]. }
  rewrite (add_entry_saves w data tbl (PStr T) emotion_data (PStr E) (PFloat S))
    in * by assumption.
  cbn [answer after] in *.
  destruct (save_entry_cases w tbl (PStr T) (PStr E) (PFloat S))
    as [(_ & Hs)
       |[(_ & _ & Hs)
        |[(t & e & s & _ & _ & _ & Hs)
         |(t & e & s & _ & Hcolumns & _ & Hs)]]];
    rewrite Hs in *; try discriminate Hanswer.
  destruct (column_values_of_strings w T E S t e s Hcolumns) as (-> & -> & Hclose).
  exists s. split; [exact Hclose|]. split; [|split; [|split]].
  - simpl. apply in_or_app. right. now left.
  - now apply parse_isoformat.
  - now apply isoformat_is_iso8601.
  - intros w' later Hin Hconnect' Hselect' Hfew.
    exact (listed_by_get_moods w' later _ Hin Hconnect' Hselect' Hfew).
Qed.

Lemma submitted_record_is_listed_among_the_newest_witness :
  exists s,
    within_a_hundredth 92 s
    /\ s = 9200
    /\ In {| id := 3; entry_text := "I am thrilled about this!";
             primary_emotion := "joy"; primary_score := s; timestamp := noon |}
          (rows (after (add_entry (working thrilled)
                          (request (PStr "I am thrilled about this!"))
                          (submitted (working thrilled) "note" 2))))
    /\ exists es,
         answer (get_moods (working thrilled)
                   (after (add_entry (working thrilled)
                             (request (PStr "I am thrilled about this!"))
                             (submitted (working thrilled) "note" 2))))
         = Response 200 (Entries es)
         /\ In {| json_id := 3;
                  json_entry_text := "I am thrilled about this!";
                  json_primary_emotion := "joy";
                  json_primary_score := s;
                  json_timestamp := "2025-03-14T12:00:00" |} es.
Proof.
  destruct (submitted_record_is_listed_among_the_newest (working thrilled)
              (request (PStr "I am thrilled about this!"))
              (PDict (of_scores joy_scores))
              (submitted (working thrilled) "note" 2)
              "I am thrilled about this!" "joy" 92
              (saved (PStr "joy") (PFloat 92)) eq_refl)
    as (s & Hclose & Hstored & _ & _ & Hlisted).
  - discriminate.
  - reflexivity.
  - reflexivity.
  - reflexivity.
  - reflexivity.
  - reflexivity.
  - assert (Hs : s = 9200).
    { vm_compute in Hstored.
      destruct Hstored as [H|[H|[H|[]]]]; inversion H. reflexivity. }
    exists s. split; [exact Hclose|]. split; [exact Hs|]. split; [exact Hstored|].
    apply (Hlisted (working thrilled)); [exact Hstored|reflexivity|reflexivity|].
    vm_compute. lia.
Defined.

(** C7.  When the text is not empty, the analysis gives a mapping and the
    insert is committed, the answer has status 200 and the body
    [{"message": "Entry saved successfully", "emotion": e, "score": s}]
    with the primary emotion and score.  For the text
    ["I am thrilled about this!"] and the classifier result
    [[{"label": "joy", "score": 0.92}, {"label": "neutral", "score": 0.05}]]
    the emotion is ["joy"] and the score [92.0], in the answer and in the
    parameters of the insert. *)
Theorem saved_entry_is_reported :
  (forall (w : world) (data text emotion_data emotion score : pyval)
          (tbl : table) (columns : string * string * Z),
      get data (PStr "text") = ret text ->
      truthy text = true ->
      fst (analyze_emotion w text) = ret emotion_data ->
      truthy emotion_data = true ->
      primary emotion_data = ret (emotion, score) ->
      connect_ok w = true ->
      column_values w text emotion score = Some columns ->
      commit_ok w = true ->
      answer (add_entry w data tbl) = Response 200 (saved emotion score))
  /\ (forall (w : world) (tbl : table) (columns : string * string * Z),
        requests_post w (payload (PStr "I am thrilled about this!"))
        = Decoded thrilled ->
        connect_ok w = true ->
        column_values w (PStr "I am thrilled about this!") (PStr "joy")
          (PFloat 92) = Some columns ->
        commit_ok w = true ->
        answer (add_entry w (request (PStr "I am thrilled about this!")) tbl)
        = Response 200
            (Json (PDict [(PStr "message", PStr "Entry saved successfully");
                          (PStr "emotion", PStr "joy");
                          (PStr "score", PFloat 92)]))
        /\ In (Insert (PStr "I am thrilled about this!") (PStr "joy") (PFloat 92))
              (trace (add_entry w (request (PStr "I am thrilled about this!"))
                        tbl))).
Proof.
  split.
  - intros w data text emotion_data emotion score tbl [[t e] s]
           Hget Htext Hfst Hdata Hprimary Hconnect Hcolumns Hcommit.
    now rewrite (add_entry_success w data tbl text emotion_data emotion score t e s).
  - intros w tbl [[t e] s] Hpost Hconnect Hcolumns Hcommit.
    rewrite (add_entry_success w (request (PStr "I am thrilled about this!")) tbl
               (PStr "I am thrilled about this!")
               (PDict (of_scores joy_scores)) (PStr "joy") (PFloat 92) t e s);
      try assumption; try reflexivity.
    + split; [reflexivity|]. simpl. auto.
    + unfold analyze_emotion. simpl fst. now rewrite Hpost.
Qed.

Lemma saved_entry_is_reported_witness :
  answer (add_entry (working thrilled)
            (request (PStr "I am thrilled about this!")) empty_table)
  = Response 200
      (Json (PDict [(PStr "message", PStr "Entry saved successfully");
                    (PStr "emotion", PStr "joy");
                    (PStr "score", PFloat 92)]))
  /\ In (Insert (PStr "I am thrilled about this!") (PStr "joy") (PFloat 92))
        (trace (add_entry (working thrilled)
                  (request (PStr "I am thrilled about this!")) empty_table)).
Proof.
  apply (proj2 saved_entry_is_reported (working thrilled) empty_table
           ("I am thrilled about this!", "joy", 9200)).
  - reflexivity.
  - reflexivity.
  - reflexivity.
  - reflexivity.
Defined.

(** C8.  [max] is never called on an empty mapping.  Whenever the
    handler comes to the line of [max], with a text that is not empty
    and a result of the analysis that is not false, the mapping is a
    dict with a first key, and the two lines of the primary emotion do
    not raise the [ValueError] that [max] has for an empty argument; a
    [ValueError] that leaves the handler is one of the request to the
    classifier.  A result whose first element is the empty list gives
    the empty mapping, and the empty mapping is answered as a failed
    analysis before the primary emotion is looked for. *)
Theorem maximum_is_never_of_an_empty_mapping
    (w : world) (data : pyval) (tbl : table) :
  (forall text emotion_data,
      get data (PStr "text") = ret text ->
      truthy text = true ->
      fst (analyze_emotion w text) = ret emotion_data ->
      truthy emotion_data = true ->
      (exists k v d, emotion_data = PDict ((k, v) :: d))
      /\ primary emotion_data <> raise ValueError)
  /\ (answer (add_entry w data tbl) = Unhandled ValueError ->
      exists text,
        get data (PStr "text") = ret text
        /\ requests_post w (payload text) = OtherException ValueError)
  /\ (forall text others,
        requests_post w (payload text) = Decoded (PList (PList [] :: others)) ->
        fst (analyze_emotion w text) = ret (PDict []))
  /\ (forall text,
        get data (PStr "text") = ret text ->
        truthy text = true ->
        fst (analyze_emotion w text) = ret (PDict []) ->
        add_entry w data tbl
        = respond 500 (error "Failed to analyze emotion") tbl
                  [Post (payload text)]).
Proof.
  split; [|split; [|split]].
  - intros text emotion_data Hget Htext Hfst Hdata.
    split; [|now apply primary_no_ValueError].
    destruct (analyze_emotion_returns w text emotion_data Hfst)
      as [->|(d & ->)]; [discriminate Hdata|].
    destruct d as [|[k v] d]; [discriminate Hdata|]. now exists k, v, d.
  - intros Hanswer.
    destruct (add_entry_cases w data tbl)
      as [(e & Hrun & Hget)
         |[(text & _ & _ & Hrun)
          |[(text & e & Hget & _ & Hraise & Hrun)
           |[(text & emotion_data & _ & _ & _ & _ & Hrun)
            |(text & emotion_data & emotion & score & _ & _ & _ & _ & _ & Hrun)]]]];
      rewrite Hrun in Hanswer; simpl in Hanswer.
    + inversion Hanswer; subst e.
      destruct data; simpl in Hget; discriminate Hget.
    + discriminate Hanswer.
    + inversion Hanswer; subst e. exists text. split; [exact Hget|].
      destruct Hraise as [Hfst|(emotion_data & _ & Hdata & Hprimary)].
      * destruct (proj1 (analyze_emotion_shapes w text) ValueError Hfst)
          as [Hother|([H|H] & _)]; [exact Hother|discriminate H|discriminate H].
      * now apply primary_no_ValueError in Hprimary.
    + discriminate Hanswer.
    + destruct (save_entry_cases w tbl text emotion score)
        as [(_ & Hs)|[(_ & _ & Hs)|[(t & e0 & s & _ & _ & _ & Hs)
                                   |(t & e0 & s & _ & _ & _ & Hs)]]];
        rewrite Hs in Hanswer; discriminate Hanswer.
  - intros text others Hpost. unfold analyze_emotion. simpl fst.
    now rewrite Hpost.
  - intros text Hget Htext Hfst.
    now apply (add_entry_not_analyzed w data tbl text (PDict [])).
Qed.

Lemma maximum_is_never_of_an_empty_mapping_witness :
  ((exists k v d, PDict (of_scores joy_scores) = PDict ((k, v) :: d))
   /\ primary (PDict (of_scores joy_scores)) <> raise ValueError)
  /\ add_entry (working (PList [PList []])) (request (PStr "hm")) empty_table
     = respond 500 (error "Failed to analyze emotion") empty_table
               [Post (payload (PStr "hm"))].
Proof.
  split.
  - apply (proj1 (maximum_is_never_of_an_empty_mapping (working thrilled)
                    (request (PStr "hm")) empty_table)
             (PStr "hm") (PDict (of_scores joy_scores)));
      reflexivity.
  - destruct (maximum_is_never_of_an_empty_mapping (working (PList [PList []]))
                (request (PStr "hm")) empty_table)
      as (_ & _ & Hempty & Hfailed).
    apply (Hfailed (PStr "hm")).
    + reflexivity.
    + reflexivity.
    + apply (Hempty (PStr "hm") []). reflexivity.
Defined.

(** C9.  The text is tested for its truth value.  The values [null],
    [""], [0], [false] and [[]] are false, and every false value is
    answered with status 400 and [{"error": "No text provided"}],
    without any call to the outside.
    The string [" "] passes: the classifier is called with it, and when
    the analysis gives a mapping the handler goes on to the insert with
    [" "] as the text, which is committed when the server accepts it. *)
Theorem text_is_tested_for_truth (w : world) (kvs : dict) (tbl : table) :
  Forall (fun v => truthy v = false)
         [PNone; PStr ""; PInt 0; PBool false; PList []]
  /\ (forall v,
        truthy v = false ->
        lookup kvs (PStr "text") = Some v ->
        add_entry w (PDict kvs) tbl
        = respond 400 (error "No text provided") tbl [])
  /\ (lookup kvs (PStr "text") = Some (PStr " ") ->
      answer (add_entry w (PDict kvs) tbl)
      <> Response 400 (error "No text provided")
      /\ hd_error (trace (add_entry w (PDict kvs) tbl))
         = Some (Post (payload (PStr " ")))
      /\ forall emotion_data emotion score t e s,
           fst (analyze_emotion w (PStr " ")) = ret emotion_data ->
           truthy emotion_data = true ->
           primary emotion_data = ret (emotion, score) ->
           connect_ok w = true ->
           column_values w (PStr " ") emotion score = Some (t, e, s) ->
           commit_ok w = true ->
           answer (add_entry w (PDict kvs) tbl)
           = Response 200 (saved emotion score)
           /\ trace (add_entry w (PDict kvs) tbl)
              = [Post (payload (PStr " ")); Connect;
                 Insert (PStr " ") emotion score; Commit; Close]
           /\ rows (after (add_entry w (PDict kvs) tbl))
              = rows tbl ++ [{| id := auto_increment tbl;
                                entry_text := t;
                                primary_emotion := e;
                                primary_score := s;
                                timestamp := current_timestamp w |}]).
Proof.
  split; [|split].
  - repeat constructor.
  - intros v Hv Hlookup.
    apply (add_entry_no_text w (PDict kvs) tbl v); [|exact Hv].
    simpl. unfold dict_get. now rewrite Hlookup.
  - intros Hlookup.
    assert (Hget : get (PDict kvs) (PStr "text") = ret (PStr " ")).
    { simpl. unfold dict_get. now rewrite Hlookup. }
    split; [|split].
    + unfold add_entry. rewrite Hget. unfold ret. simpl negb. cbv iota.
      change (analyze_emotion w (PStr " "))
        with (fst (analyze_emotion w (PStr " ")), [Post (payload (PStr " "))]).
      destruct (fst (analyze_emotion w (PStr " "))) as [x|emotion_data];
        [discriminate|].
      destruct (truthy emotion_data); simpl negb; cbv iota; [|discriminate].
      destruct (primary emotion_data) as [x|[emotion score]]; [discriminate|].
      simpl. unfold save_entry.
      destruct (get_db_connection w); [|discriminate].
      destruct (execute_insert w tbl (PStr " ") emotion score) as [[tbl' conn]|];
        [|discriminate].
      destruct (commit w tbl' conn); discriminate.
    + unfold add_entry. rewrite Hget. unfold ret. simpl negb. cbv iota.
      change (analyze_emotion w (PStr " "))
        with (fst (analyze_emotion w (PStr " ")), [Post (payload (PStr " "))]).
      destruct (fst (analyze_emotion w (PStr " "))) as [x|emotion_data];
        [reflexivity|].
      destruct (truthy emotion_data); simpl negb; cbv iota; [|reflexivity].
      destruct (primary emotion_data) as [x|[emotion score]]; reflexivity.
    + intros emotion_data emotion score t e s
             Hfst Hdata Hprimary Hconnect Hcolumns Hcommit.
      now rewrite (add_entry_success w (PDict kvs) tbl (PStr " ")
                     emotion_data emotion score t e s).
Qed.

Lemma text_is_tested_for_truth_witness :
  add_entry (working thrilled) (request (PInt 0)) empty_table
  = respond 400 (error "No text provided") empty_table []
  /\ answer (add_entry (working thrilled) (request (PStr " ")) empty_table)
     = Response 200 (saved (PStr "joy") (PFloat 92))
  /\ rows (after (add_entry (working thrilled) (request (PStr " ")) empty_table))
     = rows empty_table ++ [{| id := auto_increment empty_table;
                               entry_text := " ";
                               primary_emotion := "joy";
                               primary_score := 9200;
                               timestamp := noon |}].
Proof.
  split.
  - apply (proj1 (proj2 (text_is_tested_for_truth (working thrilled)
                           [(PStr "text", PInt 0)] empty_table)) (PInt 0)).
    + reflexivity.
    + reflexivity.
  - destruct (proj2 (proj2 (text_is_tested_for_truth (working thrilled)
                              [(PStr "text", PStr " ")] empty_table)) eq_refl)
      as (_ & _ & Hsaved).
    destruct (Hsaved (PDict (of_scores joy_scores)) (PStr "joy") (PFloat 92)
                " " "joy" 9200 eq_refl eq_refl eq_refl eq_refl eq_refl eq_refl)
      as (Hanswer & _ & Hrows).
    split; [exact Hanswer|exact Hrows].
Defined.

(** C10.  With no entry in the table, a connection that opens and a
    query that succeeds, [get_moods] answers with status 200 and the
    empty array. *)
Theorem empty_table_lists_nothing (w : world) (tbl : table) :
  rows tbl = [] ->
  connect_ok w = true ->
  select_ok w = true ->
  answer (get_moods w tbl) = Response 200 (Entries []).
Proof.
  intros Hrows Hconnect Hselect.
  unfold get_moods, get_db_connection, select_recent.
  rewrite Hconnect, Hselect, Hrows. simpl. reflexivity.
Qed.

Lemma empty_table_lists_nothing_witness :
  answer (get_moods (working thrilled) empty_table) = Response 200 (Entries []).
Proof.
  apply (empty_table_lists_nothing (working thrilled) empty_table);
    reflexivity.
Defined.

(** ** The outcomes of [analyze_emotion] *)

(** The outcomes of [analyze_emotion]: one request is made, with the
    text as [inputs].  An exception that leaves the function is one of
    the request that is neither a [RequestException] nor a
    [JSONDecodeError], or it is a [KeyError] or a [TypeError] of the
    comprehension, for a result that is a list starting with a list.
    What the function returns is [None] or a dict with hashable keys,
    and a dict only for such a result. *)
Theorem analyze_emotion_outcomes (w : world) (text : pyval) :
  snd (analyze_emotion w text) = [Post (PDict [(PStr "inputs", text)])]
  /\ (forall e,
        fst (analyze_emotion w text) = raise e ->
        requests_post w (payload text) = OtherException e
        \/ ((e = KeyError \/ e = TypeError)
            /\ exists first others,
                 requests_post w (payload text)
                 = Decoded (PList (PList first :: others))))
  /\ (forall v,
        fst (analyze_emotion w text) = ret v ->
        v = PNone
        \/ exists d,
             v = PDict d
             /\ Forall (fun kv => hashable (fst kv) = true) d
             /\ exists first others,
                  requests_post w (payload text)
                  = Decoded (PList (PList first :: others))).
Proof.
  split; [reflexivity|]. exact (analyze_emotion_shapes w text).
Qed.

Lemma analyze_emotion_outcomes_witness :
  fst (analyze_emotion (working unlabelled) (PStr "rough day")) = raise KeyError
  /\ (requests_post (working unlabelled) (payload (PStr "rough day"))
      = OtherException KeyError
      \/ ((KeyError = KeyError \/ KeyError = TypeError)
          /\ exists first others,
               requests_post (working unlabelled) (payload (PStr "rough day"))
               = Decoded (PList (PList first :: others))))
  /\ exists d,
       fst (analyze_emotion (working thrilled) (PStr "fine")) = ret (PDict d)
       /\ Forall (fun kv => hashable (fst kv) = true) d.
Proof.
  split; [reflexivity|]. split.
  - exact (proj1 (proj2 (analyze_emotion_outcomes (working unlabelled)
                           (PStr "rough day"))) KeyError eq_refl).
  - destruct (proj2 (proj2 (analyze_emotion_outcomes (working thrilled)
                              (PStr "fine")))
                (PDict (of_scores joy_scores)) eq_refl)
      as [Hnone|(d & Hd & Hkeys & _)]; [discriminate Hnone|].
    exists d. split; [now rewrite <- Hd|exact Hkeys].
Defined.

(** ** Further properties of [add_entry] *)

(** When the request to the classifier fails or its answer is not JSON,
    the handler answers with status 500 and
    [{"error": "Failed to analyze emotion"}] after the one request, and
    the database is not called. *)
Theorem unreachable_classifier_is_a_failed_analysis
    (w : world) (data text : pyval) (tbl : table) :
  get data (PStr "text") = ret text ->
  truthy text = true ->
  requests_post w (payload text) = RequestException
  \/ requests_post w (payload text) = JSONDecodeError ->
  answer (add_entry w data tbl)
  = Response 500 (error "Failed to analyze emotion")
  /\ trace (add_entry w data tbl) = [Post (payload text)]
  /\ after (add_entry w data tbl) = tbl.
Proof.
  intros Hget Htext Hpost.
  rewrite (add_entry_not_analyzed w data tbl text PNone); try assumption.
  - now repeat split.
  - unfold analyze_emotion. simpl fst. now destruct Hpost as [-> | ->].
  - reflexivity.
Qed.

Lemma unreachable_classifier_is_a_failed_analysis_witness :
  answer (add_entry offline (request (PStr "a quiet day")) empty_table)
  = Response 500 (error "Failed to analyze emotion")
  /\ trace (add_entry offline (request (PStr "a quiet day")) empty_table)
     = [Post (payload (PStr "a quiet day"))]
  /\ after (add_entry offline (request (PStr "a quiet day")) empty_table)
     = empty_table.
Proof.
  apply (unreachable_classifier_is_a_failed_analysis offline
           (request (PStr "a quiet day")) (PStr "a quiet day") empty_table).
  - reflexivity.
  - reflexivity.
  - left. reflexivity.
Defined.

(** When the analysis gave a mapping and the connection to the database
    cannot be opened, the answer is status 500 with
    [{"error": "Database connection failed"}]; no statement is sent,
    nothing is closed and the table is as it was. *)
Theorem failed_connection_saves_nothing
    (w : world) (data text emotion_data emotion score : pyval) (tbl : table) :
  get data (PStr "text") = ret text ->
  truthy text = true ->
  fst (analyze_emotion w text) = ret emotion_data ->
  truthy emotion_data = true ->
  primary emotion_data = ret (emotion, score) ->
  connect_ok w = false ->
  answer (add_entry w data tbl)
  = Response 500 (error "Database connection failed")
  /\ trace (add_entry w data tbl) = [Post (payload text); Connect]
  /\ after (add_entry w data tbl) = tbl.
Proof.
  intros Hget Htext Hfst Hdata Hprimary Hconnect.
  rewrite (add_entry_saves w data tbl text emotion_data emotion score) by assumption.
  unfold save_entry, get_db_connection. rewrite Hconnect. now repeat split.
Qed.

Lemma failed_connection_saves_nothing_witness :
  answer (add_entry (disconnected thrilled) (request (PStr "so far so good"))
            empty_table)
  = Response 500 (error "Database connection failed")
  /\ trace (add_entry (disconnected thrilled) (request (PStr "so far so good"))
              empty_table)
     = [Post (payload (PStr "so far so good")); Connect]
  /\ after (add_entry (disconnected thrilled) (request (PStr "so far so good"))
              empty_table) = empty_table.
Proof.
  apply (failed_connection_saves_nothing (disconnected thrilled)
           (request (PStr "so far so good")) (PStr "so far so good")
           (PDict (of_scores joy_scores)) (PStr "joy") (PFloat 92) empty_table);
    reflexivity.
Defined.

(** Every run of the handler either appends exactly one row, which has
    the id of the counter and the server's time, and answers with status
    200, or leaves the rows as they were and answers otherwise.  The rows
    that were there are never changed. *)
Theorem add_entry_appends_one_row_or_none
    (w : world) (data : pyval) (tbl : table) :
  (exists b r,
      answer (add_entry w data tbl) = Response 200 b
      /\ rows (after (add_entry w data tbl)) = rows tbl ++ [r]
      /\ id r = auto_increment tbl
      /\ timestamp r = current_timestamp w
      /\ auto_increment (after (add_entry w data tbl)) = auto_increment tbl + 1)
  \/ ((forall b, answer (add_entry w data tbl) <> Response 200 b)
      /\ rows (after (add_entry w data tbl)) = rows tbl
      /\ auto_increment tbl <= auto_increment (after (add_entry w data tbl))).
Proof.
  destruct (add_entry_cases w data tbl)
    as [(e & -> & _)
       |[(text & _ & _ & ->)
        |[(text & e & _ & _ & _ & ->)
         |[(text & emotion_data & _ & _ & _ & _ & ->)
          |(text & emotion_data & emotion & score & _ & _ & _ & _ & _ & ->)]]]];
    try (right; simpl; split; [discriminate|split; [reflexivity|lia]]).
  destruct (save_entry_cases w tbl text emotion score)
    as [(_ & ->)|[(_ & _ & ->)|[(t & e & s & _ & _ & _ & ->)
                               |(t & e & s & _ & _ & _ & ->)]]];
    try (right; simpl; split; [discriminate|split; [reflexivity|lia]]).
  left. simpl. eexists. eexists.
  split; [reflexivity|]. split; [reflexivity|]. now repeat split.
Qed.

(** An exception leaves the handler only before the database is called,
    and the table is as it was.  Either the body is not a JSON object:
    the exception is the [AttributeError] of [data.get] and the
    classifier was not called.  Or the classifier was called once, and
    the exception is one of that request, a [KeyError] of the
    comprehension over the items of the result, or a [TypeError]. *)
Theorem escaping_exception_touches_nothing
    (w : world) (data : pyval) (tbl : table) (e : pyexn) :
  answer (add_entry w data tbl) = Unhandled e ->
  after (add_entry w data tbl) = tbl
  /\ ((e = AttributeError
       /\ (forall d, data <> PDict d)
       /\ trace (add_entry w data tbl) = [])
      \/ exists text,
           get data (PStr "text") = ret text
           /\ trace (add_entry w data tbl) = [Post (payload text)]
           /\ (requests_post w (payload text) = OtherException e
               \/ (e = KeyError /\ fst (analyze_emotion w text) = raise KeyError)
               \/ e = TypeError)).
Proof.
  intros Hanswer.
  destruct (add_entry_cases w data tbl)
    as [(e' & Hrun & Hget)
       |[(text & _ & _ & Hrun)
        |[(text & e' & Hget & _ & Hraise & Hrun)
         |[(text & emotion_data & _ & _ & _ & _ & Hrun)
          |(text & emotion_data & emotion & score & _ & _ & _ & _ & _ & Hrun)]]]];
    rewrite Hrun in *; simpl in Hanswer |- *.
  - inversion Hanswer; subst e'. split; [reflexivity|]. left.
    destruct data; simpl in Hget; inversion Hget; subst.
    all: repeat split; intros d Hd; discriminate Hd.
  - discriminate.
  - inversion Hanswer; subst e'. split; [reflexivity|]. right.
    exists text. split; [exact Hget|]. split; [reflexivity|].
    destruct Hraise as [Hfst|(emotion_data & Hfst & Hdata & Hprimary)].
    + destruct (proj1 (analyze_emotion_shapes w text) e Hfst)
        as [Hother|([->| ->] & _)];
        [now left|right; left; now split|right; now right].
    + right. right.
      destruct (proj2 (analyze_emotion_shapes w text) emotion_data Hfst)
        as [->|(d & -> & Hkeys & _)]; [discriminate Hdata|].
      apply (primary_raises_TypeError d e); [|exact Hkeys|exact Hprimary].
      intros ->. discriminate Hdata.
  - discriminate.
  - destruct (save_entry_cases w tbl text emotion score)
      as [(_ & Hs)|[(_ & _ & Hs)|[(t & e0 & s & _ & _ & _ & Hs)
                                 |(t & e0 & s & _ & _ & _ & Hs)]]];
      rewrite Hs in Hanswer; discriminate Hanswer.
Qed.

Lemma escaping_exception_touches_nothing_witness :
  after (add_entry (working unlabelled) (request (PStr "rough day")) empty_table)
  = empty_table
  /\ ((KeyError = AttributeError
       /\ (forall d, request (PStr "rough day") <> PDict d)
       /\ trace (add_entry (working unlabelled) (request (PStr "rough day"))
                   empty_table) = [])
      \/ exists text,
           get (request (PStr "rough day")) (PStr "text") = ret text
           /\ trace (add_entry (working unlabelled) (request (PStr "rough day"))
                       empty_table) = [Post (payload text)]
           /\ (requests_post (working unlabelled) (payload text)
               = OtherException KeyError
               \/ (KeyError = KeyError
                   /\ fst (analyze_emotion (working unlabelled) text)
                      = raise KeyError)
               \/ KeyError = TypeError)).
Proof.
  apply (escaping_exception_touches_nothing (working unlabelled)
           (request (PStr "rough day")) empty_table KeyError).
  reflexivity.
Defined.

(** The handler calls the classifier before the database and the
    database only for a text that is not empty and a mapping with a
    primary emotion: a trace with a connection attempt is the request to
    the classifier followed by the calls that save this text, emotion and
    score. *)
Theorem database_is_called_after_the_analysis
    (w : world) (data : pyval) (tbl : table) :
  In Connect (trace (add_entry w data tbl)) ->
  exists text emotion_data emotion score,
    get data (PStr "text") = ret text
    /\ truthy text = true
    /\ fst (analyze_emotion w text) = ret emotion_data
    /\ truthy emotion_data = true
    /\ primary emotion_data = ret (emotion, score)
    /\ trace (add_entry w data tbl)
       = Post (payload text) :: trace (save_entry w tbl text emotion score)
    /\ forall t e s,
         In (Insert t e s) (trace (add_entry w data tbl)) ->
         (t, e, s) = (text, emotion, score).
Proof.
  intros Hconnect.
  destruct (add_entry_cases w data tbl)
    as [(e' & Hrun & _)
       |[(text & _ & _ & Hrun)
        |[(text & e' & _ & _ & _ & Hrun)
         |[(text & emotion_data & _ & _ & _ & _ & Hrun)
          |(text & emotion_data & emotion & score
            & Hget & Htext & Hfst & Hdata & Hprimary & Hrun)]]]];
    rewrite Hrun in *; simpl in Hconnect.
  - contradiction.
  - contradiction.
  - destruct Hconnect as [H|[]]; discriminate H.
  - destruct Hconnect as [H|[]]; discriminate H.
  - exists text, emotion_data, emotion, score.
    repeat (split; [assumption|]). split; [reflexivity|].
    simpl. intros t e s [H|Hin]; [discriminate H|].
    destruct (save_entry_cases w tbl text emotion score)
      as [(_ & Hs)|[(_ & _ & Hs)|[(t0 & e0 & s0 & _ & _ & _ & Hs)
                                 |(t0 & e0 & s0 & _ & _ & _ & Hs)]]];
      rewrite Hs in Hin; simpl in Hin;
      repeat (destruct Hin as [Hin|Hin]; [try discriminate Hin|]);
      try contradiction; now inversion Hin.
Qed.

Lemma database_is_called_after_the_analysis_witness :
  exists text emotion_data emotion score,
    get (request (PStr "a long day")) (PStr "text") = ret text
    /\ truthy text = true
    /\ fst (analyze_emotion (refusing thrilled) text) = ret emotion_data
    /\ truthy emotion_data = true
    /\ primary emotion_data = ret (emotion, score)
    /\ trace (add_entry (refusing thrilled) (request (PStr "a long day"))
                empty_table)
       = Post (payload text)
         :: trace (save_entry (refusing thrilled) empty_table text emotion score)
    /\ forall t e s,
         In (Insert t e s)
            (trace (add_entry (refusing thrilled) (request (PStr "a long day"))
                      empty_table)) ->
         (t, e, s) = (text, emotion, score).
Proof.
  apply (database_is_called_after_the_analysis (refusing thrilled)
           (request (PStr "a long day")) empty_table).
  vm_compute. right. now left.
Defined.

(** ** Connections *)

Lemma save_entry_session (w : world) (tbl : table) (text emotion score : pyval) :
  session (connect_ok w) Before (trace (save_entry w tbl text emotion score)) = true
  /\ List.length (connections (trace (save_entry w tbl text emotion score)))
     = 1%nat.
Proof.
  destruct (save_entry_cases w tbl text emotion score)
    as [(Hc & ->)|[(Hc & _ & ->)|[(t & e & s & Hc & _ & _ & ->)
                                 |(t & e & s & Hc & _ & _ & ->)]]];
    rewrite Hc; split; reflexivity.
Qed.

(** Both handlers try to connect once at most, send statements on the
    open connection only, and have closed it when they return, after
    which they call nothing, whatever the request, the classifier and
    the server do. *)
Theorem handlers_close_their_connection
    (w : world) (data : pyval) (tbl : table) :
  session (connect_ok w) Before (trace (add_entry w data tbl)) = true
  /\ (List.length (connections (trace (add_entry w data tbl))) <= 1)%nat
  /\ session (connect_ok w) Before (trace (get_moods w tbl)) = true
  /\ (List.length (connections (trace (get_moods w tbl))) <= 1)%nat.
Proof.
  assert (Hadd : session (connect_ok w) Before (trace (add_entry w data tbl)) = true
                 /\ (List.length (connections (trace (add_entry w data tbl))) <= 1)%nat).
  { destruct (add_entry_cases w data tbl)
      as [(e & -> & _)
         |[(text & _ & _ & ->)
          |[(text & e & _ & _ & _ & ->)
           |[(text & emotion_data & _ & _ & _ & _ & ->)
            |(text & emotion_data & emotion & score & _ & _ & _ & _ & _ & ->)]]]];
      try (split; [reflexivity|simpl; lia]).
    cbn [trace session connections filter].
    destruct (save_entry_session w tbl text emotion score) as [Hs Hc].
    split; [exact Hs|]. unfold connections in Hc. rewrite Hc. lia. }
  destruct Hadd as [Hs Hc].
  split; [exact Hs|]. split; [exact Hc|].
  unfold get_moods, get_db_connection.
  destruct (connect_ok w) eqn:Hconnect; [|split; [reflexivity|simpl; lia]].
  destruct (select_ok w); split; try reflexivity; simpl; lia.
Qed.

(** ** A label that comes more than once *)

Lemma store_upsert acc label score :
  store (of_scores acc) (PStr label) (PFloat score)
  = of_scores (upsert acc label score).
Proof.
  induction acc as [|[l s] acc IH]; simpl; [reflexivity|].
  destruct (String.eqb l label); [reflexivity|]. simpl. now rewrite IH.
Qed.

Lemma dict_comp_items scores :
  forall acc,
    dict_comp (fun item => getitem item "label")
              (fun item => getitem item "score")
              (items scores) (of_scores acc)
    = ret (of_scores
             (fold_left (fun a ls => upsert a (fst ls) (snd ls)) scores acc)).
Proof.
  induction scores as [|[l s] scores IH]; intros acc; [reflexivity|].
  unfold items. cbn [map fst snd dict_comp fold_left]. unfold classified at 1 2.
  cbn [getitem lookup same String.eqb Ascii.eqb Bool.eqb bind ret hashable].
  rewrite store_upsert. apply IH.
Qed.

Lemma upsert_labels acc label score :
  map fst (upsert acc label score) = map fst acc
  \/ (~ In label (map fst acc)
      /\ map fst (upsert acc label score) = map fst acc ++ [label]).
Proof.
  induction acc as [|[l s] acc IH]; simpl.
  - right. split; [tauto|reflexivity].
  - destruct (String.eqb_spec l label) as [->|Hne]; simpl; [now left|].
    destruct IH as [->|[Hnew ->]]; [now left|].
    right. split; [tauto|reflexivity].
Qed.

Lemma upsert_binds acc label score : In (label, score) (upsert acc label score).
Proof.
  induction acc as [|[l s] acc IH]; simpl; [now left|].
  destruct (String.eqb_spec l label) as [->|Hne]; [now left|now right].
Qed.

Lemma upsert_keeps acc label score l s :
  l <> label -> In (l, s) acc -> In (l, s) (upsert acc label score).
Proof.
  intros Hne. induction acc as [|[l' s'] acc IH]; simpl; [tauto|].
  intros [Heq|Hin].
  - inversion Heq; subst.
    destruct (String.eqb_spec l label) as [->|_]; [congruence|now left].
  - destruct (String.eqb l' label); right; [exact Hin|now apply IH].
Qed.

Lemma merged_labels scores :
  forall acc,
    NoDup (map fst acc) ->
    NoDup (map fst (fold_left (fun a ls => upsert a (fst ls) (snd ls)) scores acc))
    /\ (forall l,
          In l (map fst (fold_left (fun a ls => upsert a (fst ls) (snd ls))
                           scores acc))
          <-> In l (map fst acc) \/ In l (map fst scores))
    /\ (acc <> [] ->
        hd_error (map fst (fold_left (fun a ls => upsert a (fst ls) (snd ls))
                             scores acc))
        = hd_error (map fst acc)).
Proof.
  induction scores as [|[l s] scores IH]; simpl; intros acc Hnd.
  - split; [exact Hnd|]. split; [tauto|reflexivity].
  - assert (Hnd' : NoDup (map fst (upsert acc l s))).
    { destruct (upsert_labels acc l s) as [->|[Hnew ->]]; [exact Hnd|].
      apply NoDup_app; [exact Hnd|repeat constructor; tauto|].
      intros x Hx [<-|[]]. contradiction. }
    destruct (IH (upsert acc l s) Hnd') as (Hnodup & Hlabels & Hhead).
    split; [exact Hnodup|]. split.
    + intros l'. rewrite Hlabels.
      destruct (upsert_labels acc l s) as [Heq|[Hnew Heq]]; rewrite Heq.
      * split; [tauto|]. intros [H|[<-|H]]; auto.
        left. rewrite <- Heq. apply (in_map fst _ _ (upsert_binds acc l s)).
      * rewrite in_app_iff. simpl. tauto.
    + intros Hne. rewrite Hhead.
      * destruct (upsert_labels acc l s) as [->|[_ ->]]; [reflexivity|].
        destruct acc; [congruence|reflexivity].
      * destruct acc as [|[l' s'] acc']; [congruence|]. simpl.
        destruct (String.eqb l' l); discriminate.
Qed.

Lemma merged_keeps scores :
  forall acc l s,
    ~ In l (map fst scores) ->
    In (l, s) acc ->
    In (l, s) (fold_left (fun a ls => upsert a (fst ls) (snd ls)) scores acc).
Proof.
  induction scores as [|[l' s'] scores IH]; simpl; intros acc l s Hnew Hin.
  - exact Hin.
  - apply IH; [tauto|]. apply upsert_keeps; [|exact Hin]. intros ->. tauto.
Qed.

(** When the classifier's result has items with a label and a score
    each, labels that come more than once are in the mapping once: in
    the place of their first item, with the score of their last.  The
    mapping has the labels of the items and no other, and starts with the
    label of the first item. *)
Theorem repeated_label_keeps_its_last_score
    (w : world) (text : pyval) (scores : list (string * float))
    (others : list pyval) :
  requests_post w (payload text) = Decoded (PList (PList (items scores) :: others)) ->
  exists merged,
    fst (analyze_emotion w text) = ret (PDict (of_scores merged))
    /\ NoDup (map fst merged)
    /\ (forall l, In l (map fst merged) <-> In l (map fst scores))
    /\ hd_error (map fst merged) = hd_error (map fst scores)
    /\ forall before l s later,
         scores = before ++ (l, s) :: later ->
         ~ In l (map fst later) ->
         lookup (of_scores merged) (PStr l) = Some (PFloat s).
Proof.
  intros Hpost.
  exists (fold_left (fun a ls => upsert a (fst ls) (snd ls)) scores []).
  destruct (merged_labels scores [] (NoDup_nil _)) as (Hnodup & Hlabels & _).
  split; [|split; [exact Hnodup|split; [|split]]].
  - unfold analyze_emotion. simpl fst. rewrite Hpost.
    cbn [truthy isinstance_list item0 elements hd andb].
    change (@nil (pyval * pyval)) with (of_scores []).
    now rewrite dict_comp_items.
  - intros l. rewrite Hlabels. simpl. tauto.
  - destruct scores as [|[l s] scores']; [reflexivity|]. simpl.
    destruct (merged_labels scores' [(l, s)]) as (_ & _ & Hhead).
    { repeat constructor. simpl. tauto. }
    now rewrite Hhead.
  - intros before l s later -> Hlast.
    apply lookup_of_scores; [exact Hnodup|].
    rewrite fold_left_app. simpl.
    apply merged_keeps; [exact Hlast|]. apply upsert_binds.
Qed.

Lemma repeated_label_keeps_its_last_score_witness :
  exists merged,
    fst (analyze_emotion
           (working (PList [PList (items [("joy", 0.2%float); ("fear", 0.5%float);
                                          ("joy", 0.7%float)])]))
           (PStr "mixed"))
    = ret (PDict (of_scores merged))
    /\ NoDup (map fst merged)
    /\ (forall l, In l (map fst merged)
                  <-> In l (map fst [("joy", 0.2%float); ("fear", 0.5%float);
                                     ("joy", 0.7%float)]))
    /\ hd_error (map fst merged)
       = hd_error (map fst [("joy", 0.2%float); ("fear", 0.5%float);
                            ("joy", 0.7%float)])
    /\ forall before l s later,
         [("joy", 0.2%float); ("fear", 0.5%float); ("joy", 0.7%float)]
         = before ++ (l, s) :: later ->
         ~ In l (map fst later) ->
         lookup (of_scores merged) (PStr l) = Some (PFloat s).
Proof.
  apply (repeated_label_keeps_its_last_score
           (working (PList [PList (items [("joy", 0.2%float); ("fear", 0.5%float);
                                          ("joy", 0.7%float)])]))
           (PStr "mixed")
           [("joy", 0.2%float); ("fear", 0.5%float); ("joy", 0.7%float)] []).
  reflexivity.
Defined.

(** ** Ids and timestamps of the table *)

Lemma sorted_snoc (l : list Z) (x : Z) :
  StronglySorted Z.lt l -> Forall (fun y => y < x) l ->
  StronglySorted Z.lt (l ++ [x]).
Proof.
  induction 1 as [|y l Hl IH Hy]; simpl; intros Hx.
  - repeat constructor.
  - inversion Hx as [|? ? Hyx Hx']; subst.
    constructor; [now apply IH|].
    apply Forall_app. split; [exact Hy|now repeat constructor].
Qed.

Lemma sorted_nodup (l : list Z) : StronglySorted Z.lt l -> NoDup l.
Proof.
  induction 1 as [|y l Hl IH Hy]; constructor; [|exact IH].
  intros Hin. rewrite Forall_forall in Hy. specialize (Hy y Hin). lia.
Qed.

Lemma consistent_later_counter (tbl : table) :
  consistent tbl ->
  consistent {| rows := rows tbl; auto_increment := auto_increment tbl + 1 |}.
Proof.
  intros (Hids & Hbelow & Htimes). split; [exact Hids|]. split; [|exact Htimes].
  simpl. eapply Forall_impl; [|exact Hbelow]. simpl. intros r Hr. lia.
Qed.

Lemma consistent_append (tbl : table) (t e : string) (s : Z) (now : datetime) :
  consistent tbl ->
  valid_datetime now = true ->
  consistent {| rows := rows tbl
                        ++ [{| id := auto_increment tbl; entry_text := t;
                               primary_emotion := e; primary_score := s;
                               timestamp := now |}];
                auto_increment := auto_increment tbl + 1 |}.
Proof.
  intros (Hids & Hbelow & Htimes) Hnow. unfold consistent. simpl.
  split; [|split].
  - rewrite map_app. simpl. apply sorted_snoc; [exact Hids|].
    apply Forall_map. exact Hbelow.
  - apply Forall_app. split.
    + eapply Forall_impl; [|exact Hbelow]. simpl. intros r Hr. lia.
    + repeat constructor. simpl. lia.
  - apply Forall_app. split; [exact Htimes|]. now repeat constructor.
Qed.

(** The handler keeps the table consistent when the server's clock shows
    a time a [datetime] can hold: after any request the ids still grow
    with the insertions, hence are distinct, the counter is above them
    all, and every timestamp is valid. *)
Theorem add_entry_keeps_the_table_consistent
    (w : world) (data : pyval) (tbl : table) :
  consistent tbl ->
  valid_datetime (current_timestamp w) = true ->
  consistent (after (add_entry w data tbl))
  /\ NoDup (map id (rows (after (add_entry w data tbl)))).
Proof.
  intros Htbl Hnow.
  assert (Hafter : consistent (after (add_entry w data tbl))).
  { destruct (add_entry_cases w data tbl)
      as [(e & -> & _)
         |[(text & _ & _ & ->)
          |[(text & e & _ & _ & _ & ->)
           |[(text & emotion_data & _ & _ & _ & _ & ->)
            |(text & emotion_data & emotion & score & _ & _ & _ & _ & _ & ->)]]]];
      try exact Htbl.
    simpl.
    destruct (save_entry_cases w tbl text emotion score)
      as [(_ & ->)|[(_ & _ & ->)|[(t & e & s & _ & _ & _ & ->)
                                 |(t & e & s & _ & _ & _ & ->)]]]; simpl.
    - exact Htbl.
    - exact Htbl.
    - now apply consistent_later_counter.
    - now apply consistent_append. }
  split; [exact Hafter|]. apply sorted_nodup. apply Hafter.
Qed.

Lemma add_entry_keeps_the_table_consistent_witness :
  consistent (after (add_entry (working thrilled) (request (PStr "sunny"))
                       (submitted (working thrilled) "note" 2)))
  /\ NoDup (map id (rows (after (add_entry (working thrilled)
                                    (request (PStr "sunny"))
                                    (submitted (working thrilled) "note" 2))))).
Proof.
  apply (add_entry_keeps_the_table_consistent (working thrilled)
           (request (PStr "sunny")) (submitted (working thrilled) "note" 2)).
  - split; [|split].
    + vm_compute. repeat constructor.
    + vm_compute. repeat constructor.
    + vm_compute. repeat constructor.
  - reflexivity.
Defined.

Lemma nodup_firstn (n : nat) (l : list Z) : NoDup l -> NoDup (firstn n l).
Proof.
  intros Hnd. rewrite <- (firstn_skipn n l) in Hnd.
  now apply NoDup_app_remove_r in Hnd.
Qed.

Lemma in_firstn (n : nat) (l : list row) (r : row) : In r (firstn n l) -> In r l.
Proof.
  intros Hin. rewrite <- (firstn_skipn n l). apply in_or_app. now left.
Qed.

(** A successful listing of a consistent table shows rows of the table,
    each one once: the ids of the entries are distinct, every entry is
    a row with its timestamp as text, which reads back as the row's
    timestamp, and when the table has at most 30 rows all of them are
    listed. *)
Theorem listing_shows_each_row_once
    (w : world) (tbl : table) (es : list entry) :
  consistent tbl ->
  answer (get_moods w tbl) = Response 200 (Entries es) ->
  NoDup (map json_id es)
  /\ (forall e,
        In e es ->
        exists r,
          In r (rows tbl)
          /\ e = format_entry r
          /\ parse_iso8601 (json_timestamp e) = Some (timestamp r))
  /\ ((List.length (rows tbl) <= 30)%nat ->
      Permutation es (map format_entry (rows tbl))).
Proof.
  intros (Hids & _ & Htimes) Hanswer.
  unfold get_moods in Hanswer.
  destruct (get_db_connection w); [|discriminate].
  destruct (select_ok w); [|discriminate].
  inversion Hanswer as [Hes]. clear Hanswer Hes. unfold select_recent.
  pose proof (order_by_permutation (tie_before w) (rows tbl)) as Hperm.
  split; [|split].
  - rewrite map_map.
    change (map (fun x : row => json_id (format_entry x))) with (map id).
    rewrite <- firstn_map. apply nodup_firstn.
    apply (Permutation_NoDup (Permutation_map id (Permutation_sym Hperm))).
    now apply sorted_nodup.
  - intros e Hin. apply in_map_iff in Hin. destruct Hin as (r & <- & Hin).
    apply in_firstn in Hin. apply (Permutation_in _ Hperm) in Hin.
    exists r. split; [exact Hin|]. split; [reflexivity|].
    simpl. apply parse_isoformat.
    rewrite Forall_forall in Htimes. now apply Htimes.
  - intros Hfew. apply Permutation_map.
    rewrite firstn_all2; [exact Hperm|].
    now rewrite (Permutation_length Hperm).
Qed.

Lemma listing_shows_each_row_once_witness :
  NoDup (map json_id (map format_entry
                        (select_recent (working thrilled) 30
                           (submitted (working thrilled) "note" 2))))
  /\ (forall e,
        In e (map format_entry
                (select_recent (working thrilled) 30
                   (submitted (working thrilled) "note" 2))) ->
        exists r,
          In r (rows (submitted (working thrilled) "note" 2))
          /\ e = format_entry r
          /\ parse_iso8601 (json_timestamp e) = Some (timestamp r))
  /\ ((List.length (rows (submitted (working thrilled) "note" 2)) <= 30)%nat ->
      Permutation (map format_entry
                     (select_recent (working thrilled) 30
                        (submitted (working thrilled) "note" 2)))
                  (map format_entry (rows (submitted (working thrilled) "note" 2)))).
Proof.
  apply (listing_shows_each_row_once (working thrilled)
           (submitted (working thrilled) "note" 2)).
  - split; [|split]; vm_compute; repeat constructor.
  - reflexivity.
Defined.

(** ** [setup_database] *)

Lemma config_without_database environ :
  Provisioning.names_database (Provisioning.config_for environ None) = false.
Proof. reflexivity. Qed.

Lemma connects_to_server m environ srv :
  Provisioning.connects m srv (Provisioning.config_for environ None)
  = Provisioning.accepts m (Provisioning.config_for environ None).
Proof.
  unfold Provisioning.connects. rewrite config_without_database.
  apply andb_true_r.
Qed.

Lemma connects_to_created_database m environ srv :
  Provisioning.connects m (Provisioning.create_database srv)
    (Provisioning.config_for environ (Some Provisioning.DB_NAME))
  = Provisioning.accepts m
      (Provisioning.config_for environ (Some Provisioning.DB_NAME)).
Proof.
  unfold Provisioning.connects.
  replace (Provisioning.has_database (Provisioning.create_database srv))
    with true by now destruct srv.
  rewrite orb_true_r. apply andb_true_r.
Qed.

(** The result of the setup in terms of what the server does. *)
Lemma setup_database_result m environ srv :
  Provisioning.result (Provisioning.setup_database m environ srv)
  = Provisioning.accepts m (Provisioning.config_for environ None)
    && Provisioning.create_database_ok m
    && Provisioning.accepts m
         (Provisioning.config_for environ (Some Provisioning.DB_NAME))
    && Provisioning.create_table_ok m
    && Provisioning.ddl_commit_ok m.
Proof.
  unfold Provisioning.setup_database, Provisioning.get_db_connection.
  rewrite connects_to_server, connects_to_created_database.
  destruct (Provisioning.accepts m (Provisioning.config_for environ None));
    [|reflexivity].
  destruct (Provisioning.create_database_ok m); [|reflexivity].
  destruct (Provisioning.accepts m
              (Provisioning.config_for environ (Some Provisioning.DB_NAME)));
    [|reflexivity].
  now destruct (Provisioning.create_table_ok m).
Qed.

Lemma setup_database_success m environ srv :
  Provisioning.result (Provisioning.setup_database m environ srv) = true ->
  Provisioning.server_after (Provisioning.setup_database m environ srv)
  = Provisioning.create_table (Provisioning.create_database srv).
Proof.
  unfold Provisioning.setup_database, Provisioning.get_db_connection.
  rewrite connects_to_server, connects_to_created_database.
  destruct (Provisioning.accepts m (Provisioning.config_for environ None));
    [|discriminate].
  destruct (Provisioning.create_database_ok m); [|discriminate].
  destruct (Provisioning.accepts m
              (Provisioning.config_for environ (Some Provisioning.DB_NAME)));
    [|discriminate].
  destruct (Provisioning.create_table_ok m); [|discriminate].
  reflexivity.
Qed.

(** The server after the setup, whatever its result. *)
Lemma setup_database_server_after m environ srv :
  Provisioning.server_after (Provisioning.setup_database m environ srv)
  = if Provisioning.accepts m (Provisioning.config_for environ None)
       && Provisioning.create_database_ok m
    then
      if Provisioning.accepts m
           (Provisioning.config_for environ (Some Provisioning.DB_NAME))
         && Provisioning.create_table_ok m
      then Provisioning.create_table (Provisioning.create_database srv)
      else Provisioning.create_database srv
    else srv.
Proof.
  unfold Provisioning.setup_database, Provisioning.get_db_connection.
  rewrite connects_to_server, connects_to_created_database.
  destruct (Provisioning.accepts m (Provisioning.config_for environ None));
    [|reflexivity].
  destruct (Provisioning.create_database_ok m); [|reflexivity].
  destruct (Provisioning.accepts m
              (Provisioning.config_for environ (Some Provisioning.DB_NAME)));
    [|reflexivity].
  now destruct (Provisioning.create_table_ok m).
Qed.

(** When [setup_database] returns [True] the server has the table, which
    is the table it had or an empty one whose first id is 1, and only
    then does the entry point serve the application; otherwise it leaves
    with a message. *)
Theorem setup_succeeds_only_with_the_table
    (m : Provisioning.mysql) (environ : string -> option string)
    (srv : Provisioning.server) :
  (Provisioning.result (Provisioning.setup_database m environ srv) = true ->
   exists tbl,
     Provisioning.server_after (Provisioning.setup_database m environ srv)
     = Provisioning.Ready tbl
     /\ (forall old, srv = Provisioning.Ready old -> tbl = old)
     /\ ((forall old, srv <> Provisioning.Ready old) ->
         tbl = {| rows := []; auto_increment := 1 |})
     /\ Provisioning.main m environ srv
        = Provisioning.Serving (Provisioning.Ready tbl))
  /\ (Provisioning.result (Provisioning.setup_database m environ srv) = false ->
      Provisioning.main m environ srv
      = Provisioning.Exiting "Exiting due to database setup failure.").
Proof.
  split.
  - intros Hresult.
    pose proof (setup_database_success m environ srv Hresult) as Hserver.
    unfold Provisioning.main. rewrite Hresult, Hserver. simpl negb. cbv iota.
    destruct srv as [| |old]; simpl.
    + eexists. split; [reflexivity|]. split; [discriminate|]. now split.
    + eexists. split; [reflexivity|]. split; [discriminate|]. now split.
    + exists old. split; [reflexivity|]. split; [now intros ? [= ->]|].
      split; [|reflexivity]. intros Hnot. now destruct (Hnot old).
  - intros Hresult. unfold Provisioning.main. now rewrite Hresult.
Qed.

Lemma setup_succeeds_only_with_the_table_witness :
  exists tbl,
    Provisioning.server_after
      (Provisioning.setup_database obliging no_environment Provisioning.NoDatabase)
    = Provisioning.Ready tbl
    /\ (forall old, Provisioning.NoDatabase = Provisioning.Ready old -> tbl = old)
    /\ ((forall old, Provisioning.NoDatabase <> Provisioning.Ready old) ->
        tbl = {| rows := []; auto_increment := 1 |})
    /\ Provisioning.main obliging no_environment Provisioning.NoDatabase
       = Provisioning.Serving (Provisioning.Ready tbl).
Proof.
  apply (proj1 (setup_succeeds_only_with_the_table obliging no_environment
                  Provisioning.NoDatabase)).
  reflexivity.
Defined.

(** The setup never loses what the server has: a table that is there
    stays with all its rows, a database that is there stays.  Its result
    does not depend on what the server had, and a second run changes
    nothing more and has the result of the first. *)
Theorem setup_keeps_what_is_there
    (m : Provisioning.mysql) (environ : string -> option string)
    (srv : Provisioning.server) :
  (forall tbl,
      srv = Provisioning.Ready tbl ->
      Provisioning.server_after (Provisioning.setup_database m environ srv)
      = Provisioning.Ready tbl)
  /\ (Provisioning.has_database srv = true ->
      Provisioning.has_database
        (Provisioning.server_after (Provisioning.setup_database m environ srv))
      = true)
  /\ (forall srv',
        Provisioning.result (Provisioning.setup_database m environ srv')
        = Provisioning.result (Provisioning.setup_database m environ srv))
  /\ Provisioning.server_after
       (Provisioning.setup_database m environ
          (Provisioning.server_after (Provisioning.setup_database m environ srv)))
     = Provisioning.server_after (Provisioning.setup_database m environ srv).
Proof.
  split; [|split; [|split]].
  - intros tbl ->. rewrite setup_database_server_after.
    repeat match goal with
           | |- context [if ?b then _ else _] => destruct b
           end; reflexivity.
  - intros Hdb. rewrite setup_database_server_after.
    repeat match goal with
           | |- context [if ?b then _ else _] => destruct b
           end; destruct srv; try reflexivity; discriminate Hdb.
  - intros srv'. now rewrite !setup_database_result.
  - rewrite !setup_database_server_after.
    repeat match goal with
           | |- context [if ?b then _ else _] => destruct b
           end; destruct srv; reflexivity.
Qed.

Lemma setup_keeps_what_is_there_witness :
  Provisioning.server_after
    (Provisioning.setup_database obliging no_environment
       (Provisioning.Ready (submitted (working thrilled) "note" 2)))
  = Provisioning.Ready (submitted (working thrilled) "note" 2).
Proof.
  apply (proj1 (setup_keeps_what_is_there obliging no_environment
                  (Provisioning.Ready (submitted (working thrilled) "note" 2)))).
  reflexivity.
Defined.

(** The setup opens one connection at a time, sends its statements on
    the open connection and has closed every connection it opened when
    it returns, on success and on each failure. *)
Theorem setup_closes_its_connections
    (m : Provisioning.mysql) (environ : string -> option string)
    (srv : Provisioning.server) :
  Provisioning.well_bracketed false
    (Provisioning.calls (Provisioning.setup_database m environ srv)) = true.
Proof.
  unfold Provisioning.setup_database, Provisioning.get_db_connection.
  destruct (Provisioning.connects m srv _); [|reflexivity].
  destruct (Provisioning.create_database_ok m); [|reflexivity].
  simpl negb. cbv iota.
  destruct (Provisioning.connects m _ _); [|reflexivity].
  now destruct (Provisioning.create_table_ok m).
Qed.

(** From a server without the table to the first entry: when the setup
    succeeds the listing is empty, and after one submission that is
    saved the listing has this entry alone, with the id 1. *)
Theorem first_entry_after_setup
    (m : Provisioning.mysql) (environ : string -> option string)
    (srv : Provisioning.server)
    (w : world) (data text emotion_data emotion score : pyval)
    (t e : string) (s : Z) :
  (forall old, srv <> Provisioning.Ready old) ->
  Provisioning.result (Provisioning.setup_database m environ srv) = true ->
  get data (PStr "text") = ret text ->
  truthy text = true ->
  fst (analyze_emotion w text) = ret emotion_data ->
  truthy emotion_data = true ->
  primary emotion_data = ret (emotion, score) ->
  connect_ok w = true ->
  column_values w text emotion score = Some (t, e, s) ->
  commit_ok w = true ->
  select_ok w = true ->
  exists tbl,
    Provisioning.server_after (Provisioning.setup_database m environ srv)
    = Provisioning.Ready tbl
    /\ answer (get_moods w tbl) = Response 200 (Entries [])
    /\ answer (add_entry w data tbl) = Response 200 (saved emotion score)
    /\ answer (get_moods w (after (add_entry w data tbl)))
       = Response 200
           (Entries [{| json_id := 1;
                        json_entry_text := t;
                        json_primary_emotion := e;
                        json_primary_score := s;
                        json_timestamp := isoformat (current_timestamp w) |}]).
Proof.
  intros Hfresh Hresult Hget Htext Hfst Hdata Hprimary Hconnect Hcolumns
         Hcommit Hselect.
  exists {| rows := []; auto_increment := 1 |}.
  rewrite (setup_database_success m environ srv Hresult).
  split.
  - destruct srv as [| |old]; try reflexivity. now destruct (Hfresh old).
  - rewrite (add_entry_success w data _ text emotion_data emotion score t e s)
      by assumption.
    unfold get_moods, get_db_connection. rewrite Hconnect, Hselect.
    now repeat split.
Qed.

Lemma first_entry_after_setup_witness :
  exists tbl,
    Provisioning.server_after
      (Provisioning.setup_database obliging no_environment Provisioning.NoTable)
    = Provisioning.Ready tbl
    /\ answer (get_moods (working thrilled) tbl) = Response 200 (Entries [])
    /\ answer (add_entry (working thrilled)
                 (request (PStr "I am thrilled about this!")) tbl)
       = Response 200 (saved (PStr "joy") (PFloat 92))
    /\ answer (get_moods (working thrilled)
                 (after (add_entry (working thrilled)
                           (request (PStr "I am thrilled about this!")) tbl)))
       = Response 200
           (Entries [{| json_id := 1;
                        json_entry_text := "I am thrilled about this!";
                        json_primary_emotion := "joy";
                        json_primary_score := 9200;
                        json_timestamp := isoformat (current_timestamp
                                                       (working thrilled)) |}]).
Proof.
  apply (first_entry_after_setup obliging no_environment Provisioning.NoTable
           (working thrilled) (request (PStr "I am thrilled about this!"))
           (PStr "I am thrilled about this!") (PDict (of_scores joy_scores))
           (PStr "joy") (PFloat 92) "I am thrilled about this!" "joy" 9200).
  - discriminate.
  - reflexivity.
  - reflexivity.
  - reflexivity.
  - reflexivity.
  - reflexivity.
  - reflexivity.
  - reflexivity.
  - reflexivity.
  - reflexivity.
  - reflexivity.
Defined.
